(** * camera_self_filter / image_view.cpp

    A shallow embedding of the self-mask viewer node
    (src/camera_self_filter/src/image_view.cpp): the frame callback
    [ImageView::image_cb], which overlays the fourth channel of the converted
    frame onto its three colour channels and shows the result, and the mouse
    callback [ImageView::mouse_cb], which saves the frame held by the bridge
    under a numbered file name.

    The node is written against OpenCV's C interface, cv_bridge's CvBridge and
    boost::format.  These are libraries, not code of the node; each call the
    node makes is modelled below by the library's documented behaviour, and the
    doc comment of the definition says which routine it stands for. *)

From Stdlib Require Import ZArith List Lia Bool String Ascii Arith.
From Stdlib Require Import Floats.SpecFloat.
Import ListNotations.
Open Scope Z_scope.

(** ** IEEE binary64: the C++ type [double] *)

Module Double.

Definition double : Type := spec_float.

Definition prec : Z := 53.
Definition emax : Z := 1024.

(** Conversion of an integer to [double] (exact for |z| < 2^53). *)
Definition of_Z (z : Z) : double := binary_normalize prec emax z 0 false.

Definition mul : double -> double -> double := SFmul prec emax.
Definition add : double -> double -> double := SFadd prec emax.
Definition sub : double -> double -> double := SFsub prec emax.
Definition div : double -> double -> double := SFdiv prec emax.

(** The literals of image_cb.  A decimal literal denotes the double nearest
    to it, which is what the correctly rounded quotient 7/10 is. *)
Definition lit_0_7 : double := Eval vm_compute in div (of_Z 7) (of_Z 10).
Definition lit_1_0 : double := Eval vm_compute in of_Z 1.
Definition lit_0_0 : double := Eval vm_compute in of_Z 0.

End Double.

(** ** OpenCV: the routines image_view.cpp calls *)

Module OpenCV.
Import Double.

Definition INT_MIN : Z := - 2 ^ 31.
Definition INT_MAX : Z := 2 ^ 31 - 1.
Definition UCHAR_MAX : Z := 255.

(** Quotient [n / d] rounded to the nearest integer, a tie going to the even
    neighbour (the default rounding mode, which cvRound relies on). *)
Definition round_half_even (n d : Z) : Z :=
  let q := n / d in
  let r := n mod d in
  match 2 * r ?= d with
  | Lt => q
  | Gt => q + 1
  | Eq => if Z.even q then q else q + 1
  end.

(** [cvRound(double)]: conversion to [int] by rounding to nearest (cvtsd2si
    or lrint); a value that does not fit, an infinity or a NaN gives the
    "integer indefinite" value INT_MIN. *)
Definition cvRound (x : double) : Z :=
  match x with
  | S754_zero _ => 0
  | S754_finite s m e =>
      let a := if 0 <=? e then Z.pos m * 2 ^ e
               else round_half_even (Z.pos m) (2 ^ (- e)) in
      let v := if s then - a else a in
      if (INT_MIN <=? v) && (v <=? INT_MAX) then v else INT_MIN
  | S754_infinity _ | S754_nan => INT_MIN
  end.

(** [saturate_cast<uchar>(int v)]:
    (unsigned)v <= UCHAR_MAX ? v : v > 0 ? UCHAR_MAX : 0. *)
Definition saturate_cast_uchar (v : Z) : Z :=
  if (0 <=? v) && (v <=? UCHAR_MAX) then v
  else if 0 <? v then UCHAR_MAX else 0.

(** Modelled from the spec: [cvAddWeighted] is OpenCV's and not in the
    repository.  This is one element of it on 8-bit arrays, as the numeric
    semantics of the specification (4.2) and the library's reference manual
    give it: dst(I) = saturate(src1(I)*alpha + src2(I)*beta + gamma), the sum
    formed in a floating-point intermediate (binary64, the type of the
    weights), rounded to nearest by cvRound and saturated to 8 bits. *)
Definition addWeighted_8u (src1 : Z) (alpha : double) (src2 : Z)
           (beta gamma : double) : Z :=
  saturate_cast_uchar
    (cvRound (add (add (mul (of_Z src1) alpha) (mul (of_Z src2) beta)) gamma)).

(** An 8-bit image ([IplImage] with depth IPL_DEPTH_8U): its size, its
    channel count and its samples, interleaved pixel by pixel in row order
    (sample [c] of pixel [i] is at index [i * nChannels + c]).  The padding
    of rows to [widthStep] is not represented. *)
Record IplImage : Type := mkIpl {
  width : nat;
  height : nat;
  nChannels : nat;
  imageData : list Z
}.

Definition CvSize : Type := (nat * nat)%type.

Definition cvGetSize (img : IplImage) : CvSize := (width img, height img).

Definition area (img : IplImage) : nat := (width img * height img)%nat.

(** Sample [c] of pixel [i]. *)
Definition sample (img : IplImage) (i c : nat) : Z :=
  nth (i * nChannels img + c) (imageData img) 0.

(** [cvCreateImage(size, IPL_DEPTH_8U, channels)].  The samples of a new
    image are unspecified; they are zero here, and the node overwrites all of
    them before it reads any. *)
Definition cvCreateImage (size : CvSize) (channels : nat) : IplImage :=
  mkIpl (fst size) (snd size) channels
        (repeat 0 (fst size * snd size * channels)).

(** Channel [c] of [src] as the samples of a plane. *)
Definition plane_of (src : IplImage) (c : nat) : list Z :=
  map (fun i => sample src i c) (seq 0 (area src)).

Definition fill (dst : IplImage) (samples : list Z) : IplImage :=
  mkIpl (width dst) (height dst) (nChannels dst) samples.

(** [cvSplit(src, dst0, dst1, dst2, dst3)]: plane [k] receives channel [k]
    of [src]. *)
Definition cvSplit (src dst0 dst1 dst2 dst3 : IplImage)
  : IplImage * IplImage * IplImage * IplImage :=
  (fill dst0 (plane_of src 0), fill dst1 (plane_of src 1),
   fill dst2 (plane_of src 2), fill dst3 (plane_of src 3)).

(** [cvAddWeighted(src1, alpha, src2, beta, gamma, dst)], element by element;
    the value is the new content of [dst]. *)
Definition cvAddWeighted (src1 : IplImage) (alpha : double) (src2 : IplImage)
           (beta gamma : double) (dst : IplImage) : IplImage :=
  fill dst (map (fun p => addWeighted_8u (fst p) alpha (snd p) beta gamma)
                (combine (imageData src1) (imageData src2))).

(** [cvMerge(src0, src1, src2, src3, dst)]: every plane that is given is
    copied into the channel of [dst] with its number; a channel whose plane
    is NULL keeps the samples [dst] had (cvMerge hands the planes it was
    given to mixChannels when there are fewer of them than channels). *)
Definition cvMerge (src0 src1 src2 src3 : option IplImage) (dst : IplImage)
  : IplImage :=
  let cn := nChannels dst in
  fill dst
    (map (fun j =>
            match nth (Nat.modulo j cn) [src0; src1; src2; src3] None with
            | Some p => nth (Nat.div j cn) (imageData p) 0
            | None => nth j (imageData dst) 0
            end)
         (seq 0 (List.length (imageData dst)))).

End OpenCV.

(** ** ROS messages and cv_bridge *)

Module Ros.
Import OpenCV.

(** [sensor_msgs::Image], the fields the node and the bridge look at. *)
Record Image : Type := mkImage {
  encoding : string;
  msg_height : nat;
  msg_width : nat;
  data : list Z
}.

Definition set_encoding (msg : Image) (enc : string) : Image :=
  mkImage enc (msg_height msg) (msg_width msg) (data msg).

(** [sensor_msgs::CvBridge]: the image [toIpl()] hands out, NULL until a
    conversion has succeeded. *)
Record CvBridge : Type := mkBridge { img_ : option IplImage }.

Definition CvBridge_new : CvBridge := mkBridge None.

Definition toIpl (b : CvBridge) : option IplImage := img_ b.

(** Modelled from the spec: [CvBridge::fromImage(msg, desired_encoding)] is
    cv_bridge's and not in the repository.  [convert] is its pixel
    conversion ([None] when the encodings cannot be converted).  On success
    the bridge holds the converted image and the call returns true; on
    failure it returns false and, as the error taxonomy of the specification
    has it, the stored image is left as it was. *)
Definition fromImage (convert : Image -> string -> option IplImage)
           (b : CvBridge) (msg : Image) (desired_encoding : string)
  : bool * CvBridge :=
  match convert msg desired_encoding with
  | Some img => (true, mkBridge (Some img))
  | None => (false, b)
  end.

End Ros.

(** ** std::string *)

Module StdString.

(** [hay.find(needle)] from position 0: the first position at which
    [needle] occurs, [None] for [npos]. *)
Fixpoint find_from (needle hay : string) (pos : nat) : option nat :=
  if String.prefix needle hay then Some pos
  else match hay with
       | EmptyString => None
       | String _ rest => find_from needle rest (S pos)
       end.

Definition find (hay needle : string) : option nat := find_from needle hay 0.

End StdString.

(** ** The node: class ImageView *)

Module ImageView.
Import Double OpenCV Ros StdString.

Definition CV_EVENT_LBUTTONDOWN : Z := 1.

(** Arithmetic of the C++ type [int] (32 bits, two's complement). *)
Definition wrap_int (z : Z) : Z := (z + 2 ^ 31) mod 2 ^ 32 - 2 ^ 31.

(** The members of the class that the two callbacks use.  [sub_] and
    [image_mutex_] have no counterpart: a callback is one uninterrupted
    step here. *)
Record ImageView : Type := mkView {
  last_msg_ : option Image;
  img_bridge_ : CvBridge;
  window_name_ : string;
  filename_format_ : string;
  count_ : Z
}.

Definition set_last_msg (iv : ImageView) (m : option Image) : ImageView :=
  mkView m (img_bridge_ iv) (window_name_ iv) (filename_format_ iv) (count_ iv).

Definition set_img_bridge (iv : ImageView) (b : CvBridge) : ImageView :=
  mkView (last_msg_ iv) b (window_name_ iv) (filename_format_ iv) (count_ iv).

Definition set_count (iv : ImageView) (c : Z) : ImageView :=
  mkView (last_msg_ iv) (img_bridge_ iv) (window_name_ iv) (filename_format_ iv) c.

(** What a callback does to the world outside the object, in the order in
    which it does it. *)
Inductive Effect : Type :=
| BridgeFromImage (msg : Image) (desired_encoding : string)
    (* img_bridge_.fromImage( *msg, desired_encoding) is called *)
| InfoReceived (channels : nat)
    (* ROS_INFO("received image with %d channels", ...) *)
| ShowImage (window : string) (img : IplImage)
    (* cvShowImage(window, img) *)
| ErrorConvert (enc : string)
    (* ROS_ERROR("Unable to convert %s image to bgr8", ...) *)
| SaveImage (filename : string) (img : IplImage) (written : bool)
    (* cvSaveImage(filename, img); [written] is what the file system did *)
| InfoSaved (filename : string)
    (* ROS_INFO("Saved image %s", ...) *)
| WarnNoData.
    (* ROS_WARN("Couldn't save image, no data!") *)

(** image_cb, lines 117 and 118: a message whose encoding has "bayer" in it
    is given the encoding "mono8". *)
Definition bayer_as_mono (msg : Image) : Image :=
  match find (encoding msg) "bayer"%string with
  | Some _ => set_encoding msg "mono8"%string
  | None => msg
  end.

(** image_cb, line 130. *)
Definition alpha_value : double := lit_0_7.

(** image_cb, lines 124 to 135: the overlay of the fourth channel on the
    three colour channels, written back into [ipl_image]. *)
Definition composite (ipl_image : IplImage) : IplImage :=
  let alpha := cvCreateImage (cvGetSize ipl_image) 1 in
  let b := cvCreateImage (cvGetSize ipl_image) 1 in
  let g := cvCreateImage (cvGetSize ipl_image) 1 in
  let r := cvCreateImage (cvGetSize ipl_image) 1 in
  let '(b, g, r, alpha) := cvSplit ipl_image b g r alpha in
  let b := cvAddWeighted b alpha_value alpha (sub lit_1_0 alpha_value) lit_0_0 b in
  let g := cvAddWeighted g alpha_value alpha (sub lit_1_0 alpha_value) lit_0_0 g in
  let r := cvAddWeighted r alpha_value alpha (sub lit_1_0 alpha_value) lit_0_0 r in
  cvMerge (Some b) (Some g) (Some r) None ipl_image.

(** One sample of the overlay: what the three cvAddWeighted calls compute
    from a colour sample [x] and the sample [m] of the fourth channel. *)
Definition blend (x m : Z) : Z :=
  addWeighted_8u x alpha_value m (sub lit_1_0 alpha_value) lit_0_0.

(** [y] is an integer nearest to 0.7 * x + 0.3 * m. *)
Definition nearest_to_blend (x m y : Z) : Prop :=
  Z.abs (10 * y - (7 * x + 3 * m)) <= 5.

(** The check behind [blend_table]: for the samples [x] and [m], [blend] is
    an 8-bit value, nearest to the exact weighted sum, between [x] and [m]. *)
Definition blend_ok (x m : Z) : bool :=
  let y := blend x m in
  (0 <=? y) && (y <=? 255)
  && (Z.abs (10 * y - (7 * x + 3 * m)) <=? 5)
  && (Z.min x m <=? y) && (y <=? Z.max x m).

Definition uchar (v : Z) : Prop := 0 <= v <= 255.

(** What the bridge delivers for the encoding "bgra8": four channels of
    8-bit samples, one quadruple for every pixel. *)
Definition bgra8_image (img : IplImage) : Prop :=
  nChannels img = 4%nat
  /\ List.length (imageData img) = (area img * 4)%nat
  /\ Forall uchar (imageData img).

(** Colour slot [c] of every pixel takes the sample of slot [sigma c]; the
    fourth channel stays where it is. *)
Definition permute_colors (sigma : nat -> nat) (img : IplImage) : IplImage :=
  let cn := nChannels img in
  fill img
    (map (fun j =>
            let c := Nat.modulo j cn in
            if (c <? 3)%nat then sample img (Nat.div j cn) (sigma c)
            else nth j (imageData img) 0)
         (seq 0 (List.length (imageData img)))).

Section Callbacks.

(** cv_bridge's pixel conversion, see [Ros.fromImage]. *)
Variable convert : Image -> string -> option IplImage.

(** [(boost::format(fmt) % n).str()]. *)
Variable format : string -> Z -> string.

(** The constructor, as far as the callbacks can tell: [window_name] and
    [format_string] are the values of the parameters window_name and
    filename_format. *)
Definition new (window_name format_string : string) : ImageView :=
  mkView None CvBridge_new window_name format_string 0.

Definition image_cb (iv : ImageView) (msg : Image)
  : ImageView * list Effect :=
  (* line 113: last_msg_ = msg *)
  let iv := set_last_msg iv (Some msg) in
  (* lines 117 and 118 write through the const pointer into the message
     that last_msg_ shares, so last_msg_ shows the new tag as well *)
  let msg := bayer_as_mono msg in
  let iv := set_last_msg iv (Some msg) in
  match fromImage convert (img_bridge_ iv) msg "bgra8"%string with
  | (true, bridge) =>
      match toIpl bridge with
      | Some ipl_image =>
          let shown := composite ipl_image in
          (* the overlay is written into the bridge's own buffer *)
          (set_img_bridge iv (mkBridge (Some shown)),
           [BridgeFromImage msg "bgra8"%string;
            InfoReceived (nChannels ipl_image);
            ShowImage (window_name_ iv) shown])
      | None =>
          (* not reached: after a successful fromImage, toIpl is not NULL *)
          (set_img_bridge iv bridge, [BridgeFromImage msg "bgra8"%string])
      end
  | (false, bridge) =>
      (set_img_bridge iv bridge,
       [BridgeFromImage msg "bgra8"%string; ErrorConvert (encoding msg)])
  end.

(** [write_ok] is the outcome of cvSaveImage, which the callback does not
    look at. *)
Definition mouse_cb (iv : ImageView) (event x y flags : Z) (write_ok : bool)
  : ImageView * list Effect :=
  if negb (event =? CV_EVENT_LBUTTONDOWN) then (iv, [])
  else
    match toIpl (img_bridge_ iv) with
    | Some image =>
        let filename := format (filename_format_ iv) (count_ iv) in
        (set_count iv (wrap_int (count_ iv + 1)),
         [SaveImage filename image write_ok; InfoSaved filename])
    | None => (iv, [WarnNoData])
    end.

(** The callbacks as the node receives them from ros::spin and from the
    window thread, one at a time under [image_mutex_]. *)
Inductive Event : Type :=
| Frame (msg : Image)
| Mouse (event x y flags : Z) (write_ok : bool).

Definition step (iv : ImageView) (ev : Event) : ImageView * list Effect :=
  match ev with
  | Frame msg => image_cb iv msg
  | Mouse event x y flags write_ok => mouse_cb iv event x y flags write_ok
  end.

Fixpoint run (iv : ImageView) (evs : list Event) : ImageView * list Effect :=
  match evs with
  | [] => (iv, [])
  | ev :: rest =>
      let (iv1, out1) := step iv ev in
      let (iv2, out2) := run iv1 rest in
      (iv2, out1 ++ out2)
  end.

(** A left click that finds an image in the bridge. *)
Definition attempts_save (iv : ImageView) (ev : Event) : bool :=
  match ev with
  | Mouse event _ _ _ _ =>
      (event =? CV_EVENT_LBUTTONDOWN)
      && match toIpl (img_bridge_ iv) with Some _ => true | None => false end
  | Frame _ => false
  end.

(** A frame the bridge does not convert; a mouse event converts nothing. *)
Definition never_converts (ev : Event) : Prop :=
  match ev with
  | Frame msg => convert (bayer_as_mono msg) "bgra8"%string = None
  | Mouse _ _ _ _ _ => True
  end.

(** A frame, and one the bridge does not convert. *)
Definition rejected_frame (ev : Event) : Prop :=
  match ev with
  | Frame msg => convert (bayer_as_mono msg) "bgra8"%string = None
  | Mouse _ _ _ _ _ => False
  end.

End Callbacks.

(** Observations on a trace of effects. *)

(** The file names handed to cvSaveImage, in order. *)
Fixpoint save_names (tr : list Effect) : list string :=
  match tr with
  | [] => []
  | SaveImage f _ _ :: rest => f :: save_names rest
  | _ :: rest => save_names rest
  end.

(** The files that were written: name and content, in order. *)
Fixpoint files_written (tr : list Effect) : list (string * IplImage) :=
  match tr with
  | [] => []
  | SaveImage f img true :: rest => (f, img) :: files_written rest
  | _ :: rest => files_written rest
  end.

(** The calls of the bridge's conversion: message and desired encoding. *)
Fixpoint conversion_attempts (tr : list Effect) : list (Image * string) :=
  match tr with
  | [] => []
  | BridgeFromImage m d :: rest => (m, d) :: conversion_attempts rest
  | _ :: rest => conversion_attempts rest
  end.

(** [needle] occurs in [hay]. *)
Definition contains (hay needle : string) : Prop :=
  exists pre post : string, hay = (pre ++ needle ++ post)%string.

(** The images shown in the window, in order. *)
Fixpoint shown_images (tr : list Effect) : list IplImage :=
  match tr with
  | [] => []
  | ShowImage _ img :: rest => img :: shown_images rest
  | _ :: rest => shown_images rest
  end.

End ImageView.

(** ** Stand-ins for the libraries, and sample inputs *)

Module Samples.
Import OpenCV Ros ImageView.

(** A bridge that takes a frame which already is in the desired layout
    "bgra8" as it is and converts nothing else. *)
Definition bgra8_only (msg : Image) (desired_encoding : string)
  : option IplImage :=
  if String.eqb (encoding msg) desired_encoding
     && String.eqb desired_encoding "bgra8"
     && Nat.eqb (List.length (data msg)) (msg_width msg * msg_height msg * 4)
  then Some (mkIpl (msg_width msg) (msg_height msg) 4 (data msg))
  else None.

Definition digit (d : nat) : string :=
  String (ascii_of_nat (48 + d)) EmptyString.

Fixpoint digits (fuel n : nat) : string :=
  match fuel with
  | O => EmptyString
  | S fuel' =>
      if (n <? 10)%nat then digit n
      else (digits fuel' (Nat.div n 10) ++ digit (Nat.modulo n 10))%string
  end.

Fixpoint zeros (k : nat) : string :=
  match k with O => EmptyString | S k' => String "0"%char (zeros k') end.

(** printf's "%04i". *)
Definition printf_04i (n : Z) : string :=
  let d := digits 11 (Z.abs_nat n) in
  if n <? 0 then ("-" ++ zeros (3 - String.length d) ++ d)%string
  else (zeros (4 - String.length d) ++ d)%string.

(** boost::format for a pattern with the one directive "%04i", the shape of
    the default filename_format "frame%04i.jpg". *)
Fixpoint format_04i (fmt : string) (n : Z) : string :=
  match fmt with
  | EmptyString => EmptyString
  | String ch rest =>
      if String.prefix "%04i" fmt
      then (printf_04i n ++ String.substring 3 (String.length rest) rest)%string
      else String ch (format_04i rest n)
  end.

Definition viewer : ImageView.ImageView := new "/image" "frame%04i.jpg".

(** A 1x1 frame, colour samples 255, 0 and 100 under a fourth sample 0. *)
Definition frame_bgra : Image := mkImage "bgra8" 1 1 [255; 0; 100; 0].

(** A frame of two pixels in one row. *)
Definition frame_bgra2 : Image :=
  mkImage "bgra8" 1 2 [0; 255; 7; 255; 10; 20; 30; 40].

Definition frame_rgb : Image := mkImage "rgb8" 1 1 [1; 2; 3].

Definition frame_bayer : Image := mkImage "bayer_rggb8" 1 1 [9].

Definition ipl_bgra : IplImage := mkIpl 1 1 4 [255; 0; 100; 0].

Definition ipl_bgra2 : IplImage := mkIpl 2 1 4 [0; 255; 7; 255; 10; 20; 30; 40].

Definition rotate (c : nat) : nat :=
  match c with 0%nat => 1%nat | 1%nat => 2%nat | 2%nat => 0%nat | _ => c end.

Definition rotate_back (c : nat) : nat :=
  match c with 0%nat => 2%nat | 1%nat => 0%nat | 2%nat => 1%nat | _ => c end.

End Samples.

(** ** Further observations on events and traces *)

Module Trace.
Import OpenCV Ros ImageView.

(** The messages of the frame events, in order. *)
Fixpoint frames (evs : list Event) : list Image :=
  match evs with
  | [] => []
  | Frame msg :: rest => msg :: frames rest
  | Mouse _ _ _ _ _ :: rest => frames rest
  end.

(** A frame, or a mouse event that passes the test of line 149. *)
Definition frame_or_left_click (ev : Event) : bool :=
  match ev with
  | Frame _ => true
  | Mouse event _ _ _ _ => event =? CV_EVENT_LBUTTONDOWN
  end.

(** The same event with the pointer at the origin and no flags. *)
Definition at_origin (ev : Event) : Event :=
  match ev with
  | Frame msg => Frame msg
  | Mouse event _ _ _ write_ok => Mouse event 0 0 0 write_ok
  end.

(** The file names of the "Saved image" log lines, in order. *)
Fixpoint saved_log (tr : list Effect) : list string :=
  match tr with
  | [] => []
  | InfoSaved f :: rest => f :: saved_log rest
  | _ :: rest => saved_log rest
  end.

(** The encodings of the "Unable to convert" log lines, in order. *)
Fixpoint convert_errors (tr : list Effect) : list string :=
  match tr with
  | [] => []
  | ErrorConvert enc :: rest => enc :: convert_errors rest
  | _ :: rest => convert_errors rest
  end.

(** The windows cvShowImage was called on, in order. *)
Fixpoint shown_windows (tr : list Effect) : list string :=
  match tr with
  | [] => []
  | ShowImage w _ :: rest => w :: shown_windows rest
  | _ :: rest => shown_windows rest
  end.

(** The last element of [l], [before] when [l] is empty. *)
Definition last_opt {A : Type} (l : list A) (before : option A) : option A :=
  fold_left (fun _ x => Some x) l before.

(** The images handed to cvSaveImage, in order. *)
Fixpoint saved_images (tr : list Effect) : list IplImage :=
  match tr with
  | [] => []
  | SaveImage _ img _ :: rest => img :: saved_images rest
  | _ :: rest => saved_images rest
  end.

(** A press of the left button. *)
Definition left_click (ev : Event) : bool :=
  match ev with
  | Frame _ => false
  | Mouse event _ _ _ _ => event =? CV_EVENT_LBUTTONDOWN
  end.

(** What image_cb shows for one message: the overlay of its conversion, or
    nothing when the bridge does not convert it. *)
Definition shown_for (convert : Image -> string -> option IplImage)
           (msg : Image) : list IplImage :=
  match convert (bayer_as_mono msg) "bgra8"%string with
  | Some ipl => [composite ipl]
  | None => []
  end.

(** What image_cb reports for one message: the encoding it could not
    convert, or nothing. *)
Definition error_for (convert : Image -> string -> option IplImage)
           (msg : Image) : list string :=
  match convert (bayer_as_mono msg) "bgra8"%string with
  | Some _ => []
  | None => [encoding (bayer_as_mono msg)]
  end.

End Trace.

(** ** The process: constructor, destructor and main *)

Module Process.
Import OpenCV Ros ImageView.

Definition CV_WINDOW_AUTOSIZE : Z := 1.

(** The private parameters the constructor reads, each set or not. *)
Record Params : Type := mkParams {
  param_window_name : option string;
  param_autosize : option bool;
  param_filename_format : option string
}.

(** [NodeHandle::param(name, var, default)]: the value of the parameter when
    it is set, the default otherwise. *)
Definition param {A : Type} (value : option A) (default : A) : A :=
  match value with
  | Some v => v
  | None => default
  end.

(** The calls the process makes on ROS and on the window system, in order.
    [During] is an effect of a callback delivered while ros::spin runs. *)
Inductive Call : Type :=
| RosInit (name : string)
| WarnNotRemapped
| NamedWindow (name : string) (flags : Z)
| SetMouseCallback (name : string)
| StartWindowThread
| Subscribe (topic : string) (queue_size : Z) (transport : string)
| During (e : Effect)
| DestroyWindow (name : string).

(** The constructor, lines 76 to 101.  [topic] is what
    nh.resolveName("image") gives; the GTK hook of lines 93 to 96 is
    conditional on the platform and left out. *)
Definition construct (topic : string) (local_nh : Params) (transport : string)
  : ImageView.ImageView * list Call :=
  let window_name := param (param_window_name local_nh) topic in
  let autosize := param (param_autosize local_nh) false in
  let format_string :=
    param (param_filename_format local_nh) "frame%04i.jpg"%string in
  (new window_name format_string,
   [NamedWindow window_name (if autosize then CV_WINDOW_AUTOSIZE else 0);
    SetMouseCallback window_name;
    StartWindowThread;
    Subscribe topic 1 transport]).

(** The destructor, lines 103 to 106. *)
Definition destroy_view (iv : ImageView.ImageView) : list Call :=
  [DestroyWindow (window_name_ iv)].

(** main, lines 167 to 181: [argv] is the command line, [topic] the resolved
    name of "image", [evs] the callbacks delivered until ros::spin returns.
    The value is the exit code and the calls made. *)
Definition main (convert : Image -> string -> option IplImage)
           (format : string -> Z -> string)
           (argv : list string) (topic : string) (local_nh : Params)
           (evs : list Event) : Z * list Call :=
  let warning :=
    if String.eqb topic "/image" then [WarnNotRemapped] else [] in
  let transport :=
    if 1 <? Z.of_nat (List.length argv) then nth 1 argv EmptyString
    else "raw"%string in
  let (view, setup) := construct topic local_nh transport in
  let (view', effects) := run convert format view evs in
  (0, RosInit "image_view" :: warning ++ setup ++ map During effects
        ++ destroy_view view').

(** The effects of the callbacks among the calls, in order. *)
Fixpoint callback_effects (calls : list Call) : list Effect :=
  match calls with
  | [] => []
  | During e :: rest => e :: callback_effects rest
  | _ :: rest => callback_effects rest
  end.

(** The window a call is about, if it is about one. *)
Definition window_of (c : Call) : option string :=
  match c with
  | NamedWindow name _ => Some name
  | SetMouseCallback name => Some name
  | During (ShowImage name _) => Some name
  | DestroyWindow name => Some name
  | _ => None
  end.

End Process.

(** ** More sample inputs *)

Module MoreSamples.
Import OpenCV Ros ImageView Trace Process.

(** A pixel whose second colour sample equals the sample of the fourth
    channel. *)
Definition ipl_equal : IplImage := mkIpl 1 1 4 [200; 90; 13; 90].

(** A bridge that takes a frame which already is a complete "bgra8" image
    of 8-bit samples as it is and converts nothing else. *)
Definition bgra8_checked (msg : Image) (desired_encoding : string)
  : option IplImage :=
  if String.eqb (encoding msg) desired_encoding
     && String.eqb desired_encoding "bgra8"
     && Nat.eqb (List.length (data msg)) (msg_width msg * msg_height msg * 4)
     && forallb (fun v => (0 <=? v) && (v <=? 255)) (data msg)
  then Some (mkIpl (msg_width msg) (msg_height msg) 4 (data msg))
  else None.

Definition two_clicks : list Event :=
  [Frame Samples.frame_bgra;
   Mouse CV_EVENT_LBUTTONDOWN 5 6 0 false;
   Mouse CV_EVENT_LBUTTONDOWN 7 8 0 true].

End MoreSamples.

Import Double OpenCV Ros StdString ImageView.

(** * Properties *)

(** ** Lists read by index *)

Lemma nth_map_seq (f : nat -> Z) (len n : nat) :
  (n < len)%nat -> nth n (map f (seq 0 len)) 0 = f n.
Proof.
  intros Hn.
  rewrite (nth_indep _ 0 (f 0%nat)) by (rewrite length_map, length_seq; exact Hn).
  rewrite (map_nth f (seq 0 len) 0%nat n).
  now rewrite seq_nth.
Qed.

Lemma nth_map_combine (f : Z * Z -> Z) (l1 l2 : list Z) (n : nat) :
  (n < List.length l1)%nat -> (n < List.length l2)%nat ->
  nth n (map f (combine l1 l2)) 0 = f (nth n l1 0, nth n l2 0).
Proof.
  revert l2 n.
  induction l1 as [|a l1 IH]; intros [|b l2] [|n] H1 H2; simpl in *;
    try lia; try reflexivity.
  apply IH; lia.
Qed.

Lemma pixel_index_mod (i c : nat) :
  (c < 4)%nat -> Nat.modulo (i * 4 + c) 4 = c.
Proof.
  intros Hc.
  rewrite Nat.add_comm, Nat.Div0.mod_add.
  now apply Nat.mod_small.
Qed.

Lemma pixel_index_div (i c : nat) :
  (c < 4)%nat -> Nat.div (i * 4 + c) 4 = i.
Proof.
  intros Hc.
  rewrite Nat.add_comm, Nat.div_add by discriminate.
  now rewrite Nat.div_small.
Qed.

Lemma plane_of_length (img : IplImage) (c : nat) :
  List.length (plane_of img c) = area img.
Proof. unfold plane_of. now rewrite length_map, length_seq. Qed.

Lemma plane_of_nth (img : IplImage) (c i : nat) :
  (i < area img)%nat -> nth i (plane_of img c) 0 = sample img i c.
Proof. intros Hi. unfold plane_of. now rewrite nth_map_seq. Qed.

(** ** The arithmetic of one sample *)

(** In binary64, with the weights 0.7 and 1.0 - 0.7 of image_cb, every pair of
    8-bit samples passes [blend_ok]. *)
Lemma blend_table :
  forallb (fun x => forallb (fun m => blend_ok (Z.of_nat x) (Z.of_nat m))
                            (seq 0 256))
          (seq 0 256) = true.
Proof. vm_compute. reflexivity. Qed.

Lemma blend_ok_uchar (x m : Z) : uchar x -> uchar m -> blend_ok x m = true.
Proof.
  unfold uchar. intros Hx Hm.
  pose proof blend_table as T.
  rewrite forallb_forall in T.
  specialize (T (Z.to_nat x)).
  rewrite forallb_forall in T.
  rewrite <- (Z2Nat.id x), <- (Z2Nat.id m) by lia.
  apply T; apply in_seq; lia.
Qed.

Lemma blend_bounds (x m : Z) :
  uchar x -> uchar m ->
  uchar (blend x m) /\ nearest_to_blend x m (blend x m)
  /\ Z.min x m <= blend x m <= Z.max x m.
Proof.
  intros Hx Hm.
  pose proof (blend_ok_uchar x m Hx Hm) as H.
  unfold blend_ok in H.
  repeat rewrite andb_true_iff in H.
  destruct H as [[[[H1 H2] H3] H4] H5].
  unfold uchar, nearest_to_blend. lia.
Qed.

(** ** The overlay, sample by sample *)

Lemma composite_geometry (img : IplImage) :
  width (composite img) = width img
  /\ height (composite img) = height img
  /\ nChannels (composite img) = nChannels img
  /\ List.length (imageData (composite img)) = List.length (imageData img).
Proof.
  unfold composite, cvSplit, cvMerge, fill. simpl.
  now rewrite length_map, length_seq.
Qed.

Lemma composite_sample (img : IplImage) (i c : nat) :
  nChannels img = 4%nat ->
  List.length (imageData img) = (area img * 4)%nat ->
  (i < area img)%nat -> (c < 4)%nat ->
  sample (composite img) i c =
    if (c <? 3)%nat then blend (sample img i c) (sample img i 3)
    else sample img i c.
Proof.
  intros Hcn Hlen Hi Hc.
  unfold sample at 1.
  destruct (composite_geometry img) as (_ & _ & Hn & _).
  rewrite Hn, Hcn.
  unfold composite, cvSplit, cvAddWeighted, cvMerge, fill. simpl imageData.
  simpl nChannels. rewrite Hcn.
  rewrite nth_map_seq by lia.
  rewrite pixel_index_mod, pixel_index_div by exact Hc.
  assert (Hp : forall k, (i < List.length (plane_of img k))%nat)
    by (intros k; rewrite plane_of_length; exact Hi).
  destruct c as [|[|[|[|c]]]]; try lia; simpl Nat.ltb; cbv iota; simpl nth at 1;
    try (rewrite nth_map_combine by apply Hp; simpl fst; simpl snd;
         rewrite !plane_of_nth by exact Hi; reflexivity).
  unfold sample. now rewrite Hcn.
Qed.

Lemma sample_at_index (img : IplImage) (j : nat) :
  nChannels img = 4%nat ->
  nth j (imageData img) 0 = sample img (Nat.div j 4) (Nat.modulo j 4).
Proof.
  intros Hcn. unfold sample. rewrite Hcn. f_equal.
  pose proof (Nat.div_mod_eq j 4). lia.
Qed.

Lemma image_eq_by_samples (A B : IplImage) :
  width A = width B -> height A = height B ->
  nChannels A = 4%nat -> nChannels B = 4%nat ->
  List.length (imageData A) = (area A * 4)%nat ->
  List.length (imageData B) = (area B * 4)%nat ->
  (forall i c, (i < area A)%nat -> (c < 4)%nat -> sample A i c = sample B i c) ->
  A = B.
Proof.
  intros Hw Hh HA HB HlA HlB Hs.
  assert (Harea : area A = area B) by (unfold area; congruence).
  assert (Hd : imageData A = imageData B).
  { apply (nth_ext _ _ 0 0).
    - lia.
    - intros j Hj.
      rewrite (sample_at_index A j HA), (sample_at_index B j HB).
      apply Hs.
      + apply Nat.Div0.div_lt_upper_bound. lia.
      + apply Nat.mod_upper_bound. discriminate. }
  destruct A, B; simpl in *; congruence.
Qed.

Lemma permute_geometry (sigma : nat -> nat) (img : IplImage) :
  width (permute_colors sigma img) = width img
  /\ height (permute_colors sigma img) = height img
  /\ nChannels (permute_colors sigma img) = nChannels img
  /\ List.length (imageData (permute_colors sigma img))
     = List.length (imageData img)
  /\ area (permute_colors sigma img) = area img.
Proof.
  unfold permute_colors, fill, area. simpl.
  now rewrite length_map, length_seq.
Qed.

Lemma permute_sample (sigma : nat -> nat) (img : IplImage) (i c : nat) :
  nChannels img = 4%nat ->
  List.length (imageData img) = (area img * 4)%nat ->
  (i < area img)%nat -> (c < 4)%nat ->
  sample (permute_colors sigma img) i c =
    if (c <? 3)%nat then sample img i (sigma c) else sample img i c.
Proof.
  intros Hcn Hlen Hi Hc.
  unfold sample at 1.
  destruct (permute_geometry sigma img) as (_ & _ & Hn & _).
  rewrite Hn, Hcn.
  unfold permute_colors, fill. simpl imageData. rewrite Hcn.
  rewrite nth_map_seq by lia.
  rewrite pixel_index_mod, pixel_index_div by exact Hc.
  destruct (c <? 3)%nat; [reflexivity|].
  unfold sample. now rewrite Hcn.
Qed.

Lemma composite_area (img : IplImage) : area (composite img) = area img.
Proof.
  destruct (composite_geometry img) as (Hw & Hh & _).
  unfold area. now rewrite Hw, Hh.
Qed.

Lemma sample_uchar (img : IplImage) (i c : nat) :
  bgra8_image img -> (i < area img)%nat -> (c < 4)%nat ->
  uchar (sample img i c).
Proof.
  intros (Hcn & Hlen & Hall) Hi Hc.
  unfold sample. rewrite Hcn.
  rewrite Forall_forall in Hall.
  apply Hall, nth_In. lia.
Qed.

Lemma composite_bgra8 (img : IplImage) :
  bgra8_image img -> bgra8_image (composite img).
Proof.
  intros Himg.
  pose proof Himg as (Hcn & Hlen & Hall).
  destruct (composite_geometry img) as (Hw & Hh & Hn & Hl).
  repeat split.
  - congruence.
  - rewrite composite_area. congruence.
  - apply Forall_forall. intros v Hv.
    apply (In_nth _ _ 0) in Hv.
    destruct Hv as (j & Hj & <-).
    rewrite sample_at_index by congruence.
    assert (Hi : (Nat.div j 4 < area img)%nat)
      by (apply Nat.Div0.div_lt_upper_bound; lia).
    assert (Hc : (Nat.modulo j 4 < 4)%nat)
      by (apply Nat.mod_upper_bound; discriminate).
    rewrite composite_sample by assumption.
    destruct (Nat.modulo j 4 <? 3)%nat.
    + apply blend_bounds; apply sample_uchar; auto.
    + apply sample_uchar; auto.
Qed.

(** ** image_cb and mouse_cb, case by case *)

Lemma image_cb_converted (convert : Image -> string -> option IplImage)
      (iv : ImageView.ImageView) (msg : Image) (ipl : IplImage) :
  convert (bayer_as_mono msg) "bgra8"%string = Some ipl ->
  image_cb convert iv msg =
    (mkView (Some (bayer_as_mono msg)) (mkBridge (Some (composite ipl)))
            (window_name_ iv) (filename_format_ iv) (count_ iv),
     [BridgeFromImage (bayer_as_mono msg) "bgra8"%string;
      InfoReceived (nChannels ipl);
      ShowImage (window_name_ iv) (composite ipl)]).
Proof.
  intros Hc. unfold image_cb, fromImage. simpl. rewrite Hc. reflexivity.
Qed.

Lemma image_cb_rejected (convert : Image -> string -> option IplImage)
      (iv : ImageView.ImageView) (msg : Image) :
  convert (bayer_as_mono msg) "bgra8"%string = None ->
  image_cb convert iv msg =
    (mkView (Some (bayer_as_mono msg)) (img_bridge_ iv)
            (window_name_ iv) (filename_format_ iv) (count_ iv),
     [BridgeFromImage (bayer_as_mono msg) "bgra8"%string;
      ErrorConvert (encoding (bayer_as_mono msg))]).
Proof.
  intros Hc. unfold image_cb, fromImage. simpl. rewrite Hc. reflexivity.
Qed.

Lemma mouse_cb_saves (format : string -> Z -> string)
      (iv : ImageView.ImageView) (image : IplImage) (x y flags : Z) (ok : bool) :
  toIpl (img_bridge_ iv) = Some image ->
  mouse_cb format iv CV_EVENT_LBUTTONDOWN x y flags ok =
    (set_count iv (wrap_int (count_ iv + 1)),
     [SaveImage (format (filename_format_ iv) (count_ iv)) image ok;
      InfoSaved (format (filename_format_ iv) (count_ iv))]).
Proof. intros H. unfold mouse_cb. simpl. now rewrite H. Qed.

Lemma mouse_cb_no_data (format : string -> Z -> string)
      (iv : ImageView.ImageView) (x y flags : Z) (ok : bool) :
  toIpl (img_bridge_ iv) = None ->
  mouse_cb format iv CV_EVENT_LBUTTONDOWN x y flags ok = (iv, [WarnNoData]).
Proof. intros H. unfold mouse_cb. simpl. now rewrite H. Qed.

Lemma mouse_cb_other_event (format : string -> Z -> string)
      (iv : ImageView.ImageView) (event x y flags : Z) (ok : bool) :
  event <> CV_EVENT_LBUTTONDOWN ->
  mouse_cb format iv event x y flags ok = (iv, []).
Proof.
  intros H. unfold mouse_cb.
  destruct (Z.eqb_spec event CV_EVENT_LBUTTONDOWN); [contradiction|reflexivity].
Qed.

Lemma wrap_int_succ (c : Z) : 0 <= c < INT_MAX -> wrap_int (c + 1) = c + 1.
Proof.
  unfold INT_MAX, wrap_int. intros H.
  rewrite Z.mod_small; lia.
Qed.

(** * The claims *)

(** ** The overlay *)

(** C1: for a frame the bridge converts to four channels, the image shown is
    the overlay of the converted image, and in it every colour sample (each
    pixel, each of the channels 0, 1 and 2) is what cvAddWeighted computes in
    double precision from the input sample with weight 0.7 and the sample of
    the fourth channel with weight 1.0 - 0.7: an 8-bit value that is an
    integer nearest to 0.7 * input + 0.3 * mask. *)
Theorem overlay_is_weighted_sum :
  forall (convert : Image -> string -> option IplImage)
         (iv : ImageView.ImageView) (msg : Image) (ipl : IplImage),
    convert (bayer_as_mono msg) "bgra8"%string = Some ipl ->
    bgra8_image ipl ->
    shown_images (snd (image_cb convert iv msg)) = [composite ipl]
    /\ forall i c, (i < area ipl)%nat -> (c < 3)%nat ->
         let x := sample ipl i c in
         let m := sample ipl i 3 in
         let y := sample (composite ipl) i c in
         y = addWeighted_8u x lit_0_7 m (sub lit_1_0 lit_0_7) lit_0_0
         /\ uchar y
         /\ nearest_to_blend x m y.
Proof.
  intros convert iv msg ipl Hconv Himg.
  rewrite (image_cb_converted convert iv msg ipl Hconv). simpl.
  split; [reflexivity|].
  intros i c Hi Hc.
  pose proof Himg as (Hcn & Hlen & _).
  rewrite composite_sample by (auto; lia).
  replace (c <? 3)%nat with true by (symmetry; apply Nat.ltb_lt; exact Hc).
  assert (Hx : uchar (sample ipl i c)) by (apply sample_uchar; auto; lia).
  assert (Hm : uchar (sample ipl i 3)) by (apply sample_uchar; auto; lia).
  destruct (blend_bounds _ _ Hx Hm) as (Hy & Hnear & _).
  repeat split; auto; apply Hy.
Qed.

Lemma sample_images_bgra8 :
  bgra8_image Samples.ipl_bgra /\ bgra8_image Samples.ipl_bgra2.
Proof.
  split; (split; [reflexivity | split; [reflexivity |]]);
    repeat constructor; unfold uchar; lia.
Defined.

Lemma overlay_is_weighted_sum_witness :
  Samples.bgra8_only (bayer_as_mono Samples.frame_bgra2) "bgra8"%string
    = Some Samples.ipl_bgra2
  /\ bgra8_image Samples.ipl_bgra2
  /\ (shown_images (snd (image_cb Samples.bgra8_only Samples.viewer
                                  Samples.frame_bgra2))
      = [composite Samples.ipl_bgra2]
      /\ forall i c, (i < area Samples.ipl_bgra2)%nat -> (c < 3)%nat ->
           let x := sample Samples.ipl_bgra2 i c in
           let m := sample Samples.ipl_bgra2 i 3 in
           let y := sample (composite Samples.ipl_bgra2) i c in
           y = addWeighted_8u x lit_0_7 m (sub lit_1_0 lit_0_7) lit_0_0
           /\ uchar y
           /\ nearest_to_blend x m y).
Proof.
  assert (H1 : Samples.bgra8_only (bayer_as_mono Samples.frame_bgra2)
                                  "bgra8"%string = Some Samples.ipl_bgra2)
    by reflexivity.
  assert (H2 : bgra8_image Samples.ipl_bgra2)
    by exact (proj2 sample_images_bgra8).
  split; [exact H1 | split; [exact H2 |]].
  exact (overlay_is_weighted_sum Samples.bgra8_only Samples.viewer
                                 Samples.frame_bgra2 Samples.ipl_bgra2 H1 H2).
Defined.

(** C5, as the specification words it, fails: the overlay of a four-channel
    image has four channels, not three. *)
Lemma overlay_not_three_channels :
  bgra8_image Samples.ipl_bgra
  /\ shown_images (snd (image_cb Samples.bgra8_only Samples.viewer
                                 Samples.frame_bgra))
     = [composite Samples.ipl_bgra]
  /\ nChannels (composite Samples.ipl_bgra) <> 3%nat.
Proof.
  split; [exact (proj1 sample_images_bgra8) |].
  split; [reflexivity | vm_compute; discriminate].
Qed.

(** C5, amended: for a frame the bridge converts to four channels, the
    output of the overlay, which is what the window shows and what the bridge
    holds afterwards, is a four-channel image of 8-bit samples with the width
    and the height of the converted image: the converted buffer with its
    three colour channels blended and its fourth channel kept. *)
Theorem overlay_keeps_geometry :
  forall (convert : Image -> string -> option IplImage)
         (iv : ImageView.ImageView) (msg : Image) (ipl : IplImage),
    convert (bayer_as_mono msg) "bgra8"%string = Some ipl ->
    bgra8_image ipl ->
    let out := composite ipl in
    shown_images (snd (image_cb convert iv msg)) = [out]
    /\ toIpl (img_bridge_ (fst (image_cb convert iv msg))) = Some out
    /\ width out = width ipl
    /\ height out = height ipl
    /\ nChannels out = 4%nat
    /\ bgra8_image out
    /\ forall i, (i < area ipl)%nat ->
         sample out i 3 = sample ipl i 3
         /\ forall c, (c < 3)%nat ->
              sample out i c = blend (sample ipl i c) (sample ipl i 3).
Proof.
  intros convert iv msg ipl Hconv Himg. cbv zeta.
  rewrite (image_cb_converted convert iv msg ipl Hconv). cbn [fst snd].
  destruct (composite_geometry ipl) as (Hw & Hh & Hn & _).
  pose proof Himg as (Hcn & Hlen & _).
  split; [reflexivity |].
  split; [reflexivity |].
  split; [exact Hw |].
  split; [exact Hh |].
  split; [congruence |].
  split; [apply composite_bgra8; exact Himg |].
  intros i Hi. split.
  - now rewrite composite_sample by (auto; lia).
  - intros c Hc. rewrite composite_sample by (auto; lia).
    now replace (c <? 3)%nat with true by (symmetry; apply Nat.ltb_lt; exact Hc).
Qed.

Lemma overlay_keeps_geometry_witness :
  Samples.bgra8_only (bayer_as_mono Samples.frame_bgra2) "bgra8"%string
    = Some Samples.ipl_bgra2
  /\ bgra8_image Samples.ipl_bgra2
  /\ (let out := composite Samples.ipl_bgra2 in
      shown_images (snd (image_cb Samples.bgra8_only Samples.viewer
                                  Samples.frame_bgra2)) = [out]
      /\ toIpl (img_bridge_ (fst (image_cb Samples.bgra8_only Samples.viewer
                                           Samples.frame_bgra2))) = Some out
      /\ width out = width Samples.ipl_bgra2
      /\ height out = height Samples.ipl_bgra2
      /\ nChannels out = 4%nat
      /\ bgra8_image out
      /\ forall i, (i < area Samples.ipl_bgra2)%nat ->
           sample out i 3 = sample Samples.ipl_bgra2 i 3
           /\ forall c, (c < 3)%nat ->
                sample out i c
                = blend (sample Samples.ipl_bgra2 i c)
                        (sample Samples.ipl_bgra2 i 3)).
Proof.
  assert (H1 : Samples.bgra8_only (bayer_as_mono Samples.frame_bgra2)
                                  "bgra8"%string = Some Samples.ipl_bgra2)
    by reflexivity.
  assert (H2 : bgra8_image Samples.ipl_bgra2)
    by exact (proj2 sample_images_bgra8).
  split; [exact H1 | split; [exact H2 |]].
  exact (overlay_keeps_geometry Samples.bgra8_only Samples.viewer
                                Samples.frame_bgra2 Samples.ipl_bgra2 H1 H2).
Defined.

(** C7: every colour sample of the overlay is an 8-bit value that lies between
    the input sample and the sample of the fourth channel, so it has neither
    wrapped around nor dropped below zero; a sample 255 over a mask 0 gives
    178 and a sample 0 over a mask 255 gives 77. *)
Theorem overlay_stays_in_range :
  forall (ipl : IplImage) (i c : nat),
    bgra8_image ipl -> (i < area ipl)%nat -> (c < 3)%nat ->
    let x := sample ipl i c in
    let m := sample ipl i 3 in
    let y := sample (composite ipl) i c in
    0 <= y <= 255
    /\ Z.min x m <= y <= Z.max x m
    /\ (x = 255 -> m = 0 -> y = 178)
    /\ (x = 0 -> m = 255 -> y = 77).
Proof.
  intros ipl i c Himg Hi Hc.
  pose proof Himg as (Hcn & Hlen & _).
  rewrite composite_sample by (auto; lia).
  replace (c <? 3)%nat with true by (symmetry; apply Nat.ltb_lt; exact Hc).
  assert (Hx : uchar (sample ipl i c)) by (apply sample_uchar; auto; lia).
  assert (Hm : uchar (sample ipl i 3)) by (apply sample_uchar; auto; lia).
  destruct (blend_bounds _ _ Hx Hm) as (Hy & _ & Hbetween).
  cbv zeta.
  split; [exact Hy | split; [exact Hbetween | split]].
  - intros -> ->. vm_compute. reflexivity.
  - intros -> ->. vm_compute. reflexivity.
Qed.

Lemma overlay_stays_in_range_witness :
  bgra8_image Samples.ipl_bgra /\ (0 < area Samples.ipl_bgra)%nat /\ (0 < 3)%nat
  /\ (let x := sample Samples.ipl_bgra 0 0 in
      let m := sample Samples.ipl_bgra 0 3 in
      let y := sample (composite Samples.ipl_bgra) 0 0 in
      0 <= y <= 255
      /\ Z.min x m <= y <= Z.max x m
      /\ (x = 255 -> m = 0 -> y = 178)
      /\ (x = 0 -> m = 255 -> y = 77)).
Proof.
  assert (H1 : bgra8_image Samples.ipl_bgra) by exact (proj1 sample_images_bgra8).
  assert (H2 : (0 < area Samples.ipl_bgra)%nat) by (vm_compute; lia).
  assert (H3 : (0 < 3)%nat) by lia.
  split; [exact H1 | split; [exact H2 | split; [exact H3 |]]].
  exact (overlay_stays_in_range Samples.ipl_bgra 0 0 H1 H2 H3).
Defined.

(** C8: put the colour data into the three colour slots in another order
    ([sigma]), overlay, and put the output back with the inverse order
    ([tau]): the result is the overlay of the original image. *)
Theorem overlay_commutes_with_color_permutation :
  forall (sigma tau : nat -> nat) (ipl : IplImage),
    bgra8_image ipl ->
    (forall c, (c < 3)%nat -> (sigma c < 3)%nat) ->
    (forall c, (c < 3)%nat -> (tau c < 3)%nat) ->
    (forall c, (c < 3)%nat -> sigma (tau c) = c) ->
    permute_colors tau (composite (permute_colors sigma ipl)) = composite ipl.
Proof.
  intros sigma tau ipl (Hcn & Hlen & _) Hsig Htau Hinv.
  destruct (permute_geometry sigma ipl) as (Hw1 & Hh1 & Hn1 & Hl1 & Ha1).
  destruct (composite_geometry (permute_colors sigma ipl))
    as (Hw2 & Hh2 & Hn2 & Hl2).
  pose proof (composite_area (permute_colors sigma ipl)) as Ha2.
  destruct (permute_geometry tau (composite (permute_colors sigma ipl)))
    as (Hw3 & Hh3 & Hn3 & Hl3 & Ha3).
  destruct (composite_geometry ipl) as (Hw4 & Hh4 & Hn4 & Hl4).
  pose proof (composite_area ipl) as Ha4.
  apply image_eq_by_samples; try congruence.
  intros i c Hi Hc.
  assert (Hi' : (i < area ipl)%nat) by congruence.
  rewrite permute_sample by congruence.
  rewrite (composite_sample ipl) by assumption.
  destruct (Nat.ltb_spec c 3) as [Hc3 | Hc3].
  - rewrite composite_sample by (try congruence; specialize (Htau c Hc3); lia).
    replace (tau c <? 3)%nat with true
      by (symmetry; apply Nat.ltb_lt; auto).
    rewrite !permute_sample by (try assumption; specialize (Htau c Hc3); lia).
    replace (tau c <? 3)%nat with true
      by (symmetry; apply Nat.ltb_lt; auto).
    simpl. now rewrite Hinv.
  - rewrite composite_sample by congruence.
    replace (c <? 3)%nat with false by (symmetry; apply Nat.ltb_ge; exact Hc3).
    rewrite permute_sample by assumption.
    now replace (c <? 3)%nat with false by (symmetry; apply Nat.ltb_ge; exact Hc3).
Qed.

Lemma overlay_commutes_with_color_permutation_witness :
  bgra8_image Samples.ipl_bgra2
  /\ (forall c, (c < 3)%nat -> (Samples.rotate c < 3)%nat)
  /\ (forall c, (c < 3)%nat -> (Samples.rotate_back c < 3)%nat)
  /\ (forall c, (c < 3)%nat -> Samples.rotate (Samples.rotate_back c) = c)
  /\ permute_colors Samples.rotate_back
       (composite (permute_colors Samples.rotate Samples.ipl_bgra2))
     = composite Samples.ipl_bgra2.
Proof.
  assert (H1 : bgra8_image Samples.ipl_bgra2)
    by exact (proj2 sample_images_bgra8).
  assert (H2 : forall c, (c < 3)%nat -> (Samples.rotate c < 3)%nat)
    by (intros [|[|[|c]]] H; simpl; lia).
  assert (H3 : forall c, (c < 3)%nat -> (Samples.rotate_back c < 3)%nat)
    by (intros [|[|[|c]]] H; simpl; lia).
  assert (H4 : forall c, (c < 3)%nat -> Samples.rotate (Samples.rotate_back c) = c)
    by (intros [|[|[|c]]] H; simpl; lia).
  repeat (split; [assumption |]).
  exact (overlay_commutes_with_color_permutation
           Samples.rotate Samples.rotate_back Samples.ipl_bgra2 H1 H2 H3 H4).
Defined.

(** C9: after a frame has been converted, the bridge holds the overlay in the
    place of the converted image: the same size and channel count, the fourth
    channel as converted, the three colour channels blended; and a left click
    that follows hands exactly this image to cvSaveImage. *)
Theorem overlay_is_what_is_saved :
  forall (convert : Image -> string -> option IplImage)
         (format : string -> Z -> string)
         (iv : ImageView.ImageView) (msg : Image) (ipl : IplImage),
    convert (bayer_as_mono msg) "bgra8"%string = Some ipl ->
    bgra8_image ipl ->
    let iv1 := fst (image_cb convert iv msg) in
    toIpl (img_bridge_ iv1) = Some (composite ipl)
    /\ cvGetSize (composite ipl) = cvGetSize ipl
    /\ nChannels (composite ipl) = nChannels ipl
    /\ (forall i, (i < area ipl)%nat ->
          sample (composite ipl) i 3 = sample ipl i 3
          /\ forall c, (c < 3)%nat ->
               sample (composite ipl) i c
               = blend (sample ipl i c) (sample ipl i 3))
    /\ forall x y flags write_ok,
         snd (mouse_cb format iv1 CV_EVENT_LBUTTONDOWN x y flags write_ok)
         = [SaveImage (format (filename_format_ iv) (count_ iv))
                      (composite ipl) write_ok;
            InfoSaved (format (filename_format_ iv) (count_ iv))].
Proof.
  intros convert format iv msg ipl Hconv (Hcn & Hlen & _).
  rewrite (image_cb_converted convert iv msg ipl Hconv).
  cbv zeta. unfold fst at 1 2.
  destruct (composite_geometry ipl) as (Hw & Hh & Hn & _).
  split; [reflexivity |].
  split; [unfold cvGetSize; congruence |].
  split; [exact Hn |].
  split.
  - intros i Hi. split.
    + now rewrite composite_sample by (auto; lia).
    + intros c Hc. rewrite composite_sample by (auto; lia).
      now replace (c <? 3)%nat with true by (symmetry; apply Nat.ltb_lt; exact Hc).
  - intros x y flags ok.
    rewrite (mouse_cb_saves format _ (composite ipl)) by reflexivity.
    reflexivity.
Qed.

Lemma overlay_is_what_is_saved_witness :
  Samples.bgra8_only (bayer_as_mono Samples.frame_bgra) "bgra8"%string
    = Some Samples.ipl_bgra
  /\ bgra8_image Samples.ipl_bgra
  /\ snd (mouse_cb Samples.format_04i
            (fst (image_cb Samples.bgra8_only Samples.viewer Samples.frame_bgra))
            CV_EVENT_LBUTTONDOWN 0 0 0 true)
     = [SaveImage "frame0000.jpg" (mkIpl 1 1 4 [178; 0; 70; 0]) true;
        InfoSaved "frame0000.jpg"].
Proof.
  assert (H1 : Samples.bgra8_only (bayer_as_mono Samples.frame_bgra)
                                  "bgra8"%string = Some Samples.ipl_bgra)
    by reflexivity.
  assert (H2 : bgra8_image Samples.ipl_bgra)
    by exact (proj1 sample_images_bgra8).
  split; [exact H1 | split; [exact H2 |]].
  exact (proj2 (proj2 (proj2 (proj2
    (overlay_is_what_is_saved Samples.bgra8_only Samples.format_04i
       Samples.viewer Samples.frame_bgra Samples.ipl_bgra H1 H2))))
    0 0 0 true).
Defined.

(** ** Strings *)

Lemma prefix_iff (n h : string) :
  String.prefix n h = true <-> exists post, h = (n ++ post)%string.
Proof.
  revert h. induction n as [|a n IH]; intros h; simpl.
  - destruct h; simpl; split; intros _; eauto.
  - destruct h as [|b h]; simpl.
    + split; [discriminate | intros [post H]; discriminate].
    + destruct (ascii_dec a b) as [-> | Hab].
      * rewrite IH. split; intros [post H]; exists post; congruence.
      * split; [discriminate | intros [post H]; congruence].
Qed.

Lemma find_from_contains (needle hay : string) (pos : nat) :
  (exists k, find_from needle hay pos = Some k) <-> contains hay needle.
Proof.
  unfold contains. revert pos.
  induction hay as [|ch hay IH]; intros pos.
  - cbn [find_from].
    destruct (String.prefix needle EmptyString) eqn:E.
    + split; intros _; [| eauto].
      apply prefix_iff in E. destruct E as [post E].
      exists EmptyString, post. exact E.
    + split; [intros [k H]; discriminate |].
      intros (pre & post & H).
      destruct pre; [| discriminate]. simpl in H.
      assert (String.prefix needle EmptyString = true)
        by (apply prefix_iff; eauto).
      congruence.
  - cbn [find_from].
    destruct (String.prefix needle (String ch hay)) eqn:E.
    + split; intros _; [| eauto].
      apply prefix_iff in E. destruct E as [post E].
      exists EmptyString, post. exact E.
    + rewrite IH. split.
      * intros (pre & post & ->). exists (String ch pre), post. reflexivity.
      * intros (pre & post & H).
        destruct pre as [|c pre].
        -- simpl in H.
           assert (String.prefix needle (String ch hay) = true)
             by (apply prefix_iff; eauto).
           congruence.
        -- simpl in H. injection H as _ ->. eauto.
Qed.

Lemma bayer_as_mono_bayer (msg : Image) :
  contains (encoding msg) "bayer" ->
  bayer_as_mono msg = set_encoding msg "mono8".
Proof.
  intros H. unfold bayer_as_mono, find.
  apply (find_from_contains "bayer" (encoding msg) 0) in H.
  destruct H as [k ->]. reflexivity.
Qed.

Lemma bayer_as_mono_other (msg : Image) :
  ~ contains (encoding msg) "bayer" -> bayer_as_mono msg = msg.
Proof.
  intros H. unfold bayer_as_mono, find.
  destruct (find_from "bayer" (encoding msg) 0) eqn:E; [| reflexivity].
  exfalso. apply H. apply (find_from_contains "bayer" (encoding msg) 0). eauto.
Qed.

(** ** The frame callback *)

(** C6: when the encoding of an incoming frame has "bayer" in it, the first
    thing image_cb does to the world is its one call of the bridge's
    conversion, and the message that call receives is the incoming one with
    the encoding "mono8"; the message kept in last_msg_ carries the new tag
    too. *)
Theorem bayer_tag_rewritten_before_conversion :
  forall (convert : Image -> string -> option IplImage)
         (iv : ImageView.ImageView) (msg : Image),
    contains (encoding msg) "bayer" ->
    let r := image_cb convert iv msg in
    hd_error (snd r)
      = Some (BridgeFromImage (set_encoding msg "mono8") "bgra8")
    /\ conversion_attempts (snd r) = [(set_encoding msg "mono8", "bgra8"%string)]
    /\ encoding (set_encoding msg "mono8") = "mono8"%string
    /\ last_msg_ (fst r) = Some (set_encoding msg "mono8").
Proof.
  intros convert iv msg Hb. cbv zeta.
  pose proof (bayer_as_mono_bayer msg Hb) as Hm.
  destruct (convert (bayer_as_mono msg) "bgra8"%string) as [ipl|] eqn:E.
  - rewrite (image_cb_converted convert iv msg ipl E), Hm. simpl. auto.
  - rewrite (image_cb_rejected convert iv msg E), Hm. simpl. auto.
Qed.

Lemma bayer_tag_rewritten_before_conversion_witness :
  contains (encoding Samples.frame_bayer) "bayer"
  /\ hd_error (snd (image_cb Samples.bgra8_only Samples.viewer
                             Samples.frame_bayer))
     = Some (BridgeFromImage (mkImage "mono8" 1 1 [9]) "bgra8").
Proof.
  assert (H : contains (encoding Samples.frame_bayer) "bayer")
    by (exists EmptyString, "_rggb8"%string; reflexivity).
  split; [exact H |].
  exact (proj1 (bayer_tag_rewritten_before_conversion
                  Samples.bgra8_only Samples.viewer Samples.frame_bayer H)).
Defined.

(** C2, as the specification words it, fails: a frame that cannot be
    converted still replaces the message held in last_msg_. *)
Lemma rejected_frame_replaces_last_msg :
  Samples.bgra8_only (bayer_as_mono Samples.frame_rgb) "bgra8"%string = None
  /\ last_msg_ Samples.viewer = None
  /\ last_msg_ (fst (image_cb Samples.bgra8_only Samples.viewer
                              Samples.frame_rgb))
     = Some Samples.frame_rgb
  /\ fst (image_cb Samples.bgra8_only Samples.viewer Samples.frame_rgb)
     <> Samples.viewer.
Proof.
  repeat split; try reflexivity.
  vm_compute. discriminate.
Qed.

(** C2, amended: when the conversion fails, image_cb calls the conversion,
    logs the error and does nothing else to the world (nothing is shown,
    nothing is saved); the image held by the bridge, the counter, the window
    name and the file name pattern are as before; last_msg_ holds the incoming
    message, with its tag rewritten if it was a Bayer tag. *)
Theorem rejected_frame_is_dropped :
  forall (convert : Image -> string -> option IplImage)
         (iv : ImageView.ImageView) (msg : Image),
    convert (bayer_as_mono msg) "bgra8"%string = None ->
    let r := image_cb convert iv msg in
    snd r = [BridgeFromImage (bayer_as_mono msg) "bgra8";
             ErrorConvert (encoding (bayer_as_mono msg))]
    /\ shown_images (snd r) = []
    /\ save_names (snd r) = []
    /\ img_bridge_ (fst r) = img_bridge_ iv
    /\ count_ (fst r) = count_ iv
    /\ window_name_ (fst r) = window_name_ iv
    /\ filename_format_ (fst r) = filename_format_ iv
    /\ last_msg_ (fst r) = Some (bayer_as_mono msg).
Proof.
  intros convert iv msg E. cbv zeta.
  rewrite (image_cb_rejected convert iv msg E). simpl.
  repeat split; reflexivity.
Qed.

Lemma rejected_frame_is_dropped_witness :
  Samples.bgra8_only (bayer_as_mono Samples.frame_rgb) "bgra8"%string = None
  /\ snd (image_cb Samples.bgra8_only Samples.viewer Samples.frame_rgb)
     = [BridgeFromImage (bayer_as_mono Samples.frame_rgb) "bgra8";
        ErrorConvert (encoding (bayer_as_mono Samples.frame_rgb))].
Proof.
  assert (H : Samples.bgra8_only (bayer_as_mono Samples.frame_rgb)
                                 "bgra8"%string = None) by reflexivity.
  split; [exact H |].
  exact (proj1 (rejected_frame_is_dropped Samples.bgra8_only Samples.viewer
                                          Samples.frame_rgb H)).
Defined.

(** ** Runs of the node *)

Lemma save_names_app (t1 t2 : list Effect) :
  save_names (t1 ++ t2) = save_names t1 ++ save_names t2.
Proof.
  induction t1 as [|e t1 IH]; [reflexivity|].
  destruct e; simpl; rewrite IH; reflexivity.
Qed.

Lemma files_written_app (t1 t2 : list Effect) :
  files_written (t1 ++ t2) = files_written t1 ++ files_written t2.
Proof.
  induction t1 as [|e t1 IH]; [reflexivity|].
  destruct e as [| | | | f img [|] | |]; simpl; rewrite IH; reflexivity.
Qed.

Lemma run_cons (convert : Image -> string -> option IplImage)
    (format : string -> Z -> string)
    (iv : ImageView.ImageView) (ev : Event) (evs : list Event) :
  run convert format iv (ev :: evs) =
    (fst (run convert format (fst (step convert format iv ev)) evs),
     snd (step convert format iv ev)
     ++ snd (run convert format (fst (step convert format iv ev)) evs)).
Proof.
  simpl. destruct (step convert format iv ev) as [iv1 out1]. simpl.
  destruct (run convert format iv1 evs) as [iv2 out2]. reflexivity.
Qed.

Lemma run_app (convert : Image -> string -> option IplImage)
    (format : string -> Z -> string)
    (iv : ImageView.ImageView) (evs1 evs2 : list Event) :
  run convert format iv (evs1 ++ evs2) =
    (fst (run convert format (fst (run convert format iv evs1)) evs2),
     snd (run convert format iv evs1)
     ++ snd (run convert format (fst (run convert format iv evs1)) evs2)).
Proof.
  revert iv. induction evs1 as [|ev evs1 IH]; intros iv.
  - simpl. now destruct (run convert format iv evs2).
  - rewrite <- app_comm_cons, !run_cons, IH. simpl.
    now rewrite app_assoc.
Qed.

(** One event: the counter advances by one exactly when the event is a left
    click that finds an image, whatever becomes of the write, and this is
    when cvSaveImage is called, with the name made from the old value. *)
Lemma step_counter (convert : Image -> string -> option IplImage)
    (format : string -> Z -> string)
    (iv : ImageView.ImageView) (ev : Event) :
  0 <= count_ iv < INT_MAX ->
  let r := step convert format iv ev in
  filename_format_ (fst r) = filename_format_ iv
  /\ count_ (fst r)
     = (if attempts_save iv ev then count_ iv + 1 else count_ iv)
  /\ save_names (snd r)
     = (if attempts_save iv ev
        then [format (filename_format_ iv) (count_ iv)] else []).
Proof.
  intros Hc. cbv zeta.
  destruct ev as [msg | event x y flags ok].
  - cbn [step attempts_save].
    destruct (convert (bayer_as_mono msg) "bgra8"%string) as [ipl|] eqn:E.
    + rewrite (image_cb_converted convert iv msg ipl E). simpl. auto.
    + rewrite (image_cb_rejected convert iv msg E). simpl. auto.
  - cbn [step attempts_save].
    destruct (Z.eqb_spec event CV_EVENT_LBUTTONDOWN) as [-> | Hne].
    + destruct (toIpl (img_bridge_ iv)) as [image|] eqn:E.
      * rewrite (mouse_cb_saves format iv image x y flags ok E). simpl.
        rewrite wrap_int_succ by exact Hc. auto.
      * rewrite (mouse_cb_no_data format iv x y flags ok E). simpl. auto.
    + rewrite (mouse_cb_other_event format iv event x y flags ok Hne).
      simpl. auto.
Qed.

Lemma names_from_shift (format : string -> Z -> string)
    (fmt : string) (c : Z) (n : nat) :
  format fmt c
    :: map (fun k => format fmt (c + 1 + Z.of_nat k)) (seq 0 n)
  = map (fun k => format fmt (c + Z.of_nat k)) (seq 0 (S n)).
Proof.
  cbn [seq map]. rewrite Z.add_0_r. f_equal.
  rewrite <- seq_shift, map_map.
  apply map_ext. intros k. f_equal. lia.
Qed.

(** A run: the counter has advanced by the number of cvSaveImage calls, and
    the names of these calls are made from consecutive counter values. *)
Lemma run_counter (convert : Image -> string -> option IplImage)
    (format : string -> Z -> string)
    (evs : list Event) :
  forall iv : ImageView.ImageView,
    0 <= count_ iv ->
    count_ iv + Z.of_nat (List.length evs) <= INT_MAX ->
    let r := run convert format iv evs in
    filename_format_ (fst r) = filename_format_ iv
    /\ (List.length (save_names (snd r)) <= List.length evs)%nat
    /\ count_ (fst r) = count_ iv + Z.of_nat (List.length (save_names (snd r)))
    /\ save_names (snd r)
       = map (fun k => format (filename_format_ iv) (count_ iv + Z.of_nat k))
             (seq 0 (List.length (save_names (snd r)))).
Proof.
  induction evs as [|ev evs IH]; intros iv H0 Hmax; cbv zeta.
  - simpl. repeat split; auto; lia.
  - rewrite run_cons. cbn [fst snd].
    cbn [List.length] in Hmax.
    destruct (step_counter convert format iv ev) as (Hf & Hc & Hn); [lia|].
    set (iv1 := fst (step convert format iv ev)) in *.
    assert (H1 : 0 <= count_ iv1)
      by (rewrite Hc; destruct (attempts_save iv ev); lia).
    assert (H2 : count_ iv1 + Z.of_nat (List.length evs) <= INT_MAX)
      by (rewrite Hc; destruct (attempts_save iv ev); lia).
    destruct (IH iv1 H1 H2) as (Hf' & Hl' & Hc' & Hn').
    rewrite save_names_app, length_app, Hn.
    rewrite Hf in Hf', Hn'.
    destruct (attempts_save iv ev).
    + cbn [List.length app Nat.add].
      repeat split; [exact Hf' | lia | lia |].
      rewrite Hn' at 1. rewrite Hc. apply names_from_shift.
    + cbn [List.length app Nat.add].
      repeat split; [exact Hf' | lia | lia |].
      rewrite Hn' at 1. now rewrite Hc.
Qed.

(** While no frame converts, the bridge stays empty, nothing is saved and
    the counter does not move. *)
Lemma run_without_conversion (convert : Image -> string -> option IplImage)
    (format : string -> Z -> string)
    (evs : list Event) :
  forall iv : ImageView.ImageView,
    toIpl (img_bridge_ iv) = None ->
    Forall (never_converts convert) evs ->
    let r := run convert format iv evs in
    toIpl (img_bridge_ (fst r)) = None
    /\ count_ (fst r) = count_ iv
    /\ save_names (snd r) = []
    /\ shown_images (snd r) = [].
Proof.
  induction evs as [|ev evs IH]; intros iv Hb Hall; cbv zeta.
  - simpl. auto.
  - inversion Hall as [|? ? Hev Hrest]; subst.
    rewrite run_cons. cbn [fst snd].
    assert (Hs : toIpl (img_bridge_ (fst (step convert format iv ev))) = None
                 /\ count_ (fst (step convert format iv ev)) = count_ iv
                 /\ save_names (snd (step convert format iv ev)) = []
                 /\ shown_images (snd (step convert format iv ev)) = []).
    { destruct ev as [msg | event x y flags ok]; cbn [step].
      - simpl in Hev. rewrite (image_cb_rejected convert iv msg Hev).
        simpl. auto.
      - destruct (Z.eqb_spec event CV_EVENT_LBUTTONDOWN) as [-> | Hne].
        + rewrite (mouse_cb_no_data format iv x y flags ok Hb). simpl. auto.
        + rewrite (mouse_cb_other_event format iv event x y flags ok Hne).
          simpl. auto. }
    destruct Hs as (Hb1 & Hc1 & Hn1 & Hs1).
    destruct (IH _ Hb1 Hrest) as (Hb2 & Hc2 & Hn2 & Hs2).
    rewrite save_names_app, Hn1, Hn2.
    repeat split; try congruence.
    clear - Hs1 Hs2.
    induction (snd (step convert format iv ev)) as [|e t IHt]; [exact Hs2|].
    destruct e; simpl in *; try discriminate; auto.
Qed.

(** Frames that do not convert leave the bridge, the counter and the file
    name pattern alone. *)
Lemma run_rejected_frames (convert : Image -> string -> option IplImage)
    (format : string -> Z -> string)
    (evs : list Event) :
  forall iv : ImageView.ImageView,
    Forall (rejected_frame convert) evs ->
    let r := run convert format iv evs in
    img_bridge_ (fst r) = img_bridge_ iv
    /\ count_ (fst r) = count_ iv
    /\ filename_format_ (fst r) = filename_format_ iv
    /\ save_names (snd r) = [].
Proof.
  induction evs as [|ev evs IH]; intros iv Hall; cbv zeta.
  - simpl. auto.
  - inversion Hall as [|? ? Hev Hrest]; subst.
    rewrite run_cons. cbn [fst snd].
    destruct ev as [msg | event x y flags ok]; [| contradiction].
    simpl in Hev. cbn [step].
    rewrite (image_cb_rejected convert iv msg Hev). cbn [fst snd].
    destruct (IH (mkView (Some (bayer_as_mono msg)) (img_bridge_ iv)
                         (window_name_ iv) (filename_format_ iv) (count_ iv))
                 Hrest) as (Hb & Hc & Hf & Hn).
    simpl in Hb, Hc, Hf.
    rewrite save_names_app, Hn. simpl. auto.
Qed.


(** ** The mouse callback *)

(** C3, as the specification words it, fails: a left click whose write fails
    still uses up a counter value.  After one frame, a click whose write
    fails leaves no file and the counter at 1, and the one successful save
    that follows is named with the value 1, not 0. *)
Lemma failed_write_consumes_counter_value :
  let attempt :=
    run Samples.bgra8_only Samples.format_04i Samples.viewer
        [Frame Samples.frame_bgra; Mouse CV_EVENT_LBUTTONDOWN 0 0 0 false] in
  let both :=
    run Samples.bgra8_only Samples.format_04i Samples.viewer
        [Frame Samples.frame_bgra; Mouse CV_EVENT_LBUTTONDOWN 0 0 0 false;
         Mouse CV_EVENT_LBUTTONDOWN 0 0 0 true] in
  files_written (snd attempt) = []
  /\ count_ (fst attempt) = 1
  /\ map fst (files_written (snd both)) = ["frame0001.jpg"%string]
  /\ map fst (files_written (snd both))
     <> [Samples.format_04i "frame%04i.jpg" 0].
Proof.
  vm_compute. repeat split; try reflexivity. discriminate.
Qed.

(** C3, amended: the counter starts at 0; along a run of fewer than 2^31
    events it never decreases and is never reset: after any part of the run
    it is the number of cvSaveImage calls made so far.  One event advances it
    by exactly one when it is a left click that finds an image in the bridge
    (whether or not the file gets written) and leaves it alone otherwise, and
    the names given to cvSaveImage are made from the counter values in order,
    without gap or repetition. *)
Theorem counter_numbers_save_attempts :
  forall (convert : Image -> string -> option IplImage)
         (format : string -> Z -> string)
         (window_name format_string : string) (evs1 evs2 : list Event),
    Z.of_nat (List.length (evs1 ++ evs2)) <= INT_MAX ->
    let start := new window_name format_string in
    let r1 := run convert format start evs1 in
    let r2 := run convert format (fst r1) evs2 in
    count_ start = 0
    /\ run convert format start (evs1 ++ evs2) = (fst r2, snd r1 ++ snd r2)
    /\ count_ (fst r1) = Z.of_nat (List.length (save_names (snd r1)))
    /\ count_ (fst r2)
       = count_ (fst r1) + Z.of_nat (List.length (save_names (snd r2)))
    /\ count_ (fst r1) <= count_ (fst r2)
    /\ save_names (snd r2)
       = map (fun k => format format_string (count_ (fst r1) + Z.of_nat k))
             (seq 0 (List.length (save_names (snd r2))))
    /\ forall ev,
         let r := step convert format (fst r1) ev in
         count_ (fst r1) < INT_MAX ->
         count_ (fst r)
         = (if attempts_save (fst r1) ev then count_ (fst r1) + 1
            else count_ (fst r1))
         /\ save_names (snd r)
            = (if attempts_save (fst r1) ev
               then [format format_string (count_ (fst r1))] else []).
Proof.
  intros convert format wn fs evs1 evs2 Hlen. cbv zeta.
  rewrite length_app, Nat2Z.inj_add in Hlen.
  destruct (run_counter convert format evs1 (new wn fs))
    as (Hf1 & Hl1 & Hc1 & Hn1); [simpl; lia | simpl; lia |].
  simpl count_ in Hc1 at 2. simpl filename_format_ in Hf1 at 2.
  destruct (run_counter convert format evs2
                        (fst (run convert format (new wn fs) evs1)))
    as (Hf2 & Hl2 & Hc2 & Hn2); [lia | lia |].
  rewrite Hf1 in Hn2.
  split; [reflexivity |].
  split; [apply run_app |].
  split; [lia |].
  split; [exact Hc2 |].
  split; [lia |].
  split; [exact Hn2 |].
  intros ev Hlt.
  destruct (step_counter convert format
              (fst (run convert format (new wn fs) evs1)) ev)
    as (_ & Hc & Hn); [lia |].
  rewrite Hf1 in Hn. auto.
Qed.

Lemma counter_numbers_save_attempts_witness :
  Z.of_nat (List.length
              ([Frame Samples.frame_bgra; Mouse CV_EVENT_LBUTTONDOWN 0 0 0 false]
               ++ [Mouse CV_EVENT_LBUTTONDOWN 0 0 0 true]))
  <= INT_MAX
  /\ count_ (new "/image" "frame%04i.jpg") = 0.
Proof.
  assert (H : Z.of_nat (List.length
                ([Frame Samples.frame_bgra;
                  Mouse CV_EVENT_LBUTTONDOWN 0 0 0 false]
                 ++ [Mouse CV_EVENT_LBUTTONDOWN 0 0 0 true])) <= INT_MAX)
    by (vm_compute; discriminate).
  split; [exact H |].
  exact (proj1 (counter_numbers_save_attempts
                  Samples.bgra8_only Samples.format_04i
                  "/image" "frame%04i.jpg"
                  [Frame Samples.frame_bgra;
                   Mouse CV_EVENT_LBUTTONDOWN 0 0 0 false]
                  [Mouse CV_EVENT_LBUTTONDOWN 0 0 0 true] H)).
Defined.

(** C4: as long as no frame has been converted (the bridge was empty and no
    frame of the run converts), a left click calls cvSaveImage not at all,
    logs the warning that there is no data and leaves the object, its counter
    included, as it is; no file has been written during the run either. *)
Theorem click_without_frame_saves_nothing :
  forall (convert : Image -> string -> option IplImage)
         (format : string -> Z -> string)
         (iv : ImageView.ImageView) (evs : list Event)
         (x y flags : Z) (write_ok : bool),
    toIpl (img_bridge_ iv) = None ->
    Forall (never_converts convert) evs ->
    let before := run convert format iv evs in
    let r := mouse_cb format (fst before) CV_EVENT_LBUTTONDOWN x y flags
                      write_ok in
    snd r = [WarnNoData]
    /\ save_names (snd r) = []
    /\ files_written (snd r) = []
    /\ fst r = fst before
    /\ count_ (fst r) = count_ iv
    /\ save_names (snd before) = [].
Proof.
  intros convert format iv evs x y flags ok Hb Hall. cbv zeta.
  destruct (run_without_conversion convert format evs iv Hb Hall)
    as (Hb' & Hc' & Hn' & _).
  rewrite (mouse_cb_no_data format _ x y flags ok Hb'). simpl.
  repeat split; auto.
Qed.

Lemma click_without_frame_saves_nothing_witness :
  toIpl (img_bridge_ Samples.viewer) = None
  /\ Forall (never_converts Samples.bgra8_only) [Frame Samples.frame_rgb]
  /\ snd (mouse_cb Samples.format_04i
            (fst (run Samples.bgra8_only Samples.format_04i Samples.viewer
                      [Frame Samples.frame_rgb]))
            CV_EVENT_LBUTTONDOWN 3 4 0 true)
     = [WarnNoData].
Proof.
  assert (H1 : toIpl (img_bridge_ Samples.viewer) = None) by reflexivity.
  assert (H2 : Forall (never_converts Samples.bgra8_only)
                      [Frame Samples.frame_rgb])
    by (repeat constructor).
  split; [exact H1 | split; [exact H2 |]].
  exact (proj1 (click_without_frame_saves_nothing
                  Samples.bgra8_only Samples.format_04i Samples.viewer
                  [Frame Samples.frame_rgb] 3 4 0 true H1 H2)).
Defined.

(** C10: once a frame has been converted, frames that fail to convert do not
    empty the bridge: a left click after them does not warn; it hands the
    overlay of the last converted frame to cvSaveImage under the name of the
    current counter value, logs the save and advances the counter by one. *)
Theorem click_after_failures_saves_last_converted :
  forall (convert : Image -> string -> option IplImage)
         (format : string -> Z -> string)
         (iv : ImageView.ImageView) (msg : Image) (ipl : IplImage)
         (failures : list Event) (x y flags : Z) (write_ok : bool),
    convert (bayer_as_mono msg) "bgra8"%string = Some ipl ->
    Forall (rejected_frame convert) failures ->
    0 <= count_ iv < INT_MAX ->
    let before := run convert format iv (Frame msg :: failures) in
    let r := mouse_cb format (fst before) CV_EVENT_LBUTTONDOWN x y flags
                      write_ok in
    snd r = [SaveImage (format (filename_format_ iv) (count_ iv))
                       (composite ipl) write_ok;
             InfoSaved (format (filename_format_ iv) (count_ iv))]
    /\ count_ (fst r) = count_ iv + 1
    /\ ~ In WarnNoData (snd r)
    /\ (write_ok = true ->
        files_written (snd r)
        = [(format (filename_format_ iv) (count_ iv), composite ipl)]).
Proof.
  intros convert format iv msg ipl failures x y flags ok Hconv Hall Hc.
  cbv zeta.
  rewrite run_cons. cbn [fst step].
  rewrite (image_cb_converted convert iv msg ipl Hconv). cbn [fst].
  destruct (run_rejected_frames convert format failures
              (mkView (Some (bayer_as_mono msg))
                      (mkBridge (Some (composite ipl)))
                      (window_name_ iv) (filename_format_ iv) (count_ iv))
              Hall)
    as (Hb & Hcnt & Hf & _).
  simpl in Hb, Hcnt, Hf.
  rewrite (mouse_cb_saves format _ (composite ipl))
    by (unfold toIpl; rewrite Hb; reflexivity).
  cbn [fst snd]. unfold set_count. cbn [count_].
  rewrite Hf, Hcnt, wrap_int_succ by exact Hc.
  repeat split.
  - intros [H | [H | []]]; discriminate.
  - intros ->. reflexivity.
Qed.

Lemma click_after_failures_saves_last_converted_witness :
  Samples.bgra8_only (bayer_as_mono Samples.frame_bgra) "bgra8"%string
    = Some Samples.ipl_bgra
  /\ Forall (rejected_frame Samples.bgra8_only)
            [Frame Samples.frame_rgb; Frame Samples.frame_bayer]
  /\ 0 <= count_ Samples.viewer < INT_MAX
  /\ snd (mouse_cb Samples.format_04i
            (fst (run Samples.bgra8_only Samples.format_04i Samples.viewer
                      [Frame Samples.frame_bgra; Frame Samples.frame_rgb;
                       Frame Samples.frame_bayer]))
            CV_EVENT_LBUTTONDOWN 0 0 0 true)
     = [SaveImage (Samples.format_04i "frame%04i.jpg" 0)
                  (composite Samples.ipl_bgra) true;
        InfoSaved (Samples.format_04i "frame%04i.jpg" 0)].
Proof.
  assert (H1 : Samples.bgra8_only (bayer_as_mono Samples.frame_bgra)
                                  "bgra8"%string = Some Samples.ipl_bgra)
    by reflexivity.
  assert (H2 : Forall (rejected_frame Samples.bgra8_only)
                      [Frame Samples.frame_rgb; Frame Samples.frame_bayer])
    by (repeat constructor).
  assert (H3 : 0 <= count_ Samples.viewer < INT_MAX)
    by (unfold INT_MAX; simpl; lia).
  split; [exact H1 | split; [exact H2 | split; [exact H3 |]]].
  exact (proj1 (click_after_failures_saves_last_converted
                  Samples.bgra8_only Samples.format_04i Samples.viewer
                  Samples.frame_bgra Samples.ipl_bgra
                  [Frame Samples.frame_rgb; Frame Samples.frame_bayer]
                  0 0 0 true H1 H2 H3)).
Defined.

(** * Further properties of the callbacks *)

Import Trace Process.

(** ** Events that make no difference *)

Lemma run_skip (convert : Image -> string -> option IplImage)
      (format : string -> Z -> string)
      (iv : ImageView.ImageView) (ev : Event) (evs : list Event) :
  step convert format iv ev = (iv, []) ->
  run convert format iv (ev :: evs) = run convert format iv evs.
Proof.
  intros H. rewrite run_cons, H. cbn [fst snd app].
  now destruct (run convert format iv evs).
Qed.

(** X1: mouse events other than a press of the left button are without any
    effect: a run with them is the run without them, in state and in
    trace. *)
Theorem other_mouse_events_change_nothing :
  forall (convert : Image -> string -> option IplImage)
         (format : string -> Z -> string)
         (iv : ImageView.ImageView) (evs : list Event),
    run convert format iv (filter frame_or_left_click evs)
    = run convert format iv evs.
Proof.
  intros convert format iv evs. revert iv.
  induction evs as [|ev evs IH]; intros iv; [reflexivity |].
  cbn [filter].
  destruct (frame_or_left_click ev) eqn:E.
  - rewrite !run_cons, IH. reflexivity.
  - destruct ev as [msg | event x y flags ok]; [discriminate |].
    cbn [frame_or_left_click] in E.
    rewrite IH. symmetry. apply run_skip. cbn [step].
    apply mouse_cb_other_event.
    intros ->. rewrite Z.eqb_refl in E. discriminate.
Qed.

(** X2: where the pointer is and which flags come with a mouse event makes
    no difference: every click is treated like a click at the origin. *)
Theorem click_position_is_ignored :
  forall (convert : Image -> string -> option IplImage)
         (format : string -> Z -> string)
         (iv : ImageView.ImageView) (evs : list Event),
    run convert format iv (map at_origin evs) = run convert format iv evs.
Proof.
  intros convert format iv evs. revert iv.
  induction evs as [|ev evs IH]; intros iv; [reflexivity |].
  cbn [map]. rewrite !run_cons.
  assert (Hs : step convert format iv (at_origin ev)
               = step convert format iv ev)
    by (destruct ev; reflexivity).
  rewrite Hs, IH. reflexivity.
Qed.

(** ** What is shown is what is saved *)

Lemma shown_images_app (t1 t2 : list Effect) :
  shown_images (t1 ++ t2) = shown_images t1 ++ shown_images t2.
Proof.
  induction t1 as [|e t1 IH]; [reflexivity|].
  destruct e; simpl; rewrite IH; reflexivity.
Qed.

Lemma step_bridge_last_shown (convert : Image -> string -> option IplImage)
      (format : string -> Z -> string)
      (iv : ImageView.ImageView) (ev : Event) :
  toIpl (img_bridge_ (fst (step convert format iv ev)))
  = last_opt (shown_images (snd (step convert format iv ev)))
             (toIpl (img_bridge_ iv)).
Proof.
  destruct ev as [msg | event x y flags ok]; cbn [step].
  - destruct (convert (bayer_as_mono msg) "bgra8"%string) as [ipl|] eqn:E.
    + rewrite (image_cb_converted convert iv msg ipl E). reflexivity.
    + rewrite (image_cb_rejected convert iv msg E). reflexivity.
  - destruct (Z.eqb_spec event CV_EVENT_LBUTTONDOWN) as [-> | Hne].
    + destruct (toIpl (img_bridge_ iv)) as [image|] eqn:E.
      * rewrite (mouse_cb_saves format iv image x y flags ok E).
        cbn. exact E.
      * rewrite (mouse_cb_no_data format iv x y flags ok E). cbn. exact E.
    + rewrite (mouse_cb_other_event format iv event x y flags ok Hne).
      reflexivity.
Qed.

Lemma run_bridge_last_shown (convert : Image -> string -> option IplImage)
      (format : string -> Z -> string) (evs : list Event) :
  forall iv : ImageView.ImageView,
    toIpl (img_bridge_ (fst (run convert format iv evs)))
    = last_opt (shown_images (snd (run convert format iv evs)))
               (toIpl (img_bridge_ iv)).
Proof.
  induction evs as [|ev evs IH]; intros iv; [reflexivity |].
  rewrite run_cons. cbn [fst snd].
  rewrite IH, shown_images_app. unfold last_opt.
  rewrite fold_left_app. f_equal.
  apply step_bridge_last_shown.
Qed.

(** X3: in a run of a new viewer, a left click saves exactly when an image
    has been shown, and the image it hands to cvSaveImage is the one shown
    last; when nothing has been shown yet it only warns. *)
Theorem click_saves_the_image_shown_last :
  forall (convert : Image -> string -> option IplImage)
         (format : string -> Z -> string)
         (window_name format_string : string) (evs : list Event)
         (x y flags : Z) (write_ok : bool),
    let r := run convert format (new window_name format_string) evs in
    let click := mouse_cb format (fst r) CV_EVENT_LBUTTONDOWN x y flags
                          write_ok in
    match last_opt (shown_images (snd r)) None with
    | Some img =>
        snd click
        = [SaveImage (format (filename_format_ (fst r)) (count_ (fst r)))
                     img write_ok;
           InfoSaved (format (filename_format_ (fst r)) (count_ (fst r)))]
    | None => snd click = [WarnNoData]
    end.
Proof.
  intros convert format wn fs evs x y flags ok. cbv zeta.
  pose proof (run_bridge_last_shown convert format evs (new wn fs)) as H.
  change (toIpl (img_bridge_ (new wn fs))) with (@None IplImage) in H.
  destruct (last_opt (shown_images
              (snd (run convert format (new wn fs) evs))) None) as [img|].
  - now rewrite (mouse_cb_saves format _ img x y flags ok H).
  - now rewrite (mouse_cb_no_data format _ x y flags ok H).
Qed.

(** ** The message kept for the mouse callback *)

(** X4: last_msg_ always holds the message of the frame delivered last,
    converted or not, with a Bayer tag rewritten; mouse events do not touch
    it. *)
Theorem last_msg_is_the_last_frame :
  forall (convert : Image -> string -> option IplImage)
         (format : string -> Z -> string)
         (iv : ImageView.ImageView) (evs : list Event),
    last_msg_ (fst (run convert format iv evs))
    = last_opt (map bayer_as_mono (frames evs)) (last_msg_ iv).
Proof.
  intros convert format iv evs. revert iv.
  induction evs as [|ev evs IH]; intros iv; [reflexivity |].
  rewrite run_cons. cbn [fst]. rewrite IH.
  destruct ev as [msg | event x y flags ok]; cbn [step frames map].
  - unfold last_opt. cbn [fold_left]. f_equal.
    destruct (convert (bayer_as_mono msg) "bgra8"%string) as [ipl|] eqn:E.
    + rewrite (image_cb_converted convert iv msg ipl E). reflexivity.
    + rewrite (image_cb_rejected convert iv msg E). reflexivity.
  - f_equal.
    destruct (Z.eqb_spec event CV_EVENT_LBUTTONDOWN) as [-> | Hne].
    + destruct (toIpl (img_bridge_ iv)) as [image|] eqn:E.
      * rewrite (mouse_cb_saves format iv image x y flags ok E). reflexivity.
      * rewrite (mouse_cb_no_data format iv x y flags ok E). reflexivity.
    + rewrite (mouse_cb_other_event format iv event x y flags ok Hne).
      reflexivity.
Qed.

(** ** The log of saves *)

Lemma saved_log_app (t1 t2 : list Effect) :
  saved_log (t1 ++ t2) = saved_log t1 ++ saved_log t2.
Proof.
  induction t1 as [|e t1 IH]; [reflexivity|].
  destruct e; simpl; rewrite IH; reflexivity.
Qed.

Lemma step_saved_log (convert : Image -> string -> option IplImage)
      (format : string -> Z -> string)
      (iv : ImageView.ImageView) (ev : Event) :
  saved_log (snd (step convert format iv ev))
  = save_names (snd (step convert format iv ev)).
Proof.
  destruct ev as [msg | event x y flags ok]; cbn [step].
  - destruct (convert (bayer_as_mono msg) "bgra8"%string) as [ipl|] eqn:E.
    + rewrite (image_cb_converted convert iv msg ipl E). reflexivity.
    + rewrite (image_cb_rejected convert iv msg E). reflexivity.
  - destruct (Z.eqb_spec event CV_EVENT_LBUTTONDOWN) as [-> | Hne].
    + destruct (toIpl (img_bridge_ iv)) as [image|] eqn:E.
      * rewrite (mouse_cb_saves format iv image x y flags ok E). reflexivity.
      * rewrite (mouse_cb_no_data format iv x y flags ok E). reflexivity.
    + rewrite (mouse_cb_other_event format iv event x y flags ok Hne).
      reflexivity.
Qed.

Lemma files_written_le_save_names (tr : list Effect) :
  (List.length (files_written tr) <= List.length (save_names tr))%nat.
Proof.
  induction tr as [|e tr IH]; [simpl; lia |].
  destruct e as [| | | | f img [|] | |]; simpl; lia.
Qed.

Lemma files_written_names_incl (tr : list Effect) :
  incl (map fst (files_written tr)) (save_names tr).
Proof.
  induction tr as [|e tr IH]; [intros a H; exact H |].
  destruct e as [| | | | f img [|] | |]; simpl; auto.
  - intros a [<- | H]; [left; reflexivity | right; auto].
  - intros a H. right. auto.
Qed.

(** X5: "Saved image" is logged for every call of cvSaveImage, with the name
    of the call and whatever became of the write: the names logged in a run
    are the names handed to cvSaveImage, in order; every file written is
    among the logged ones, and there are at most as many files as log
    lines. *)
Theorem every_save_attempt_is_logged_as_saved :
  forall (convert : Image -> string -> option IplImage)
         (format : string -> Z -> string)
         (iv : ImageView.ImageView) (evs : list Event),
    let tr := snd (run convert format iv evs) in
    saved_log tr = save_names tr
    /\ incl (map fst (files_written tr)) (saved_log tr)
    /\ (List.length (files_written tr) <= List.length (saved_log tr))%nat.
Proof.
  intros convert format iv evs. cbv zeta.
  assert (H : saved_log (snd (run convert format iv evs))
              = save_names (snd (run convert format iv evs))).
  { revert iv. induction evs as [|ev evs IH]; intros iv; [reflexivity |].
    rewrite run_cons. cbn [snd].
    rewrite saved_log_app, save_names_app, IH, step_saved_log. reflexivity. }
  rewrite H. split; [reflexivity | split].
  - apply files_written_names_incl.
  - apply files_written_le_save_names.
Qed.

(** X6: when the file name pattern gives different names to the counter
    values a run can reach, no two calls of cvSaveImage in a run of a new
    viewer (of fewer than 2^31 events) get the same name: the node does not
    overwrite a file it has saved. *)
Theorem save_names_never_repeat :
  forall (convert : Image -> string -> option IplImage)
         (format : string -> Z -> string)
         (window_name format_string : string) (evs : list Event),
    Z.of_nat (List.length evs) <= INT_MAX ->
    (forall a b,
        0 <= a < Z.of_nat (List.length evs) ->
        0 <= b < Z.of_nat (List.length evs) ->
        format format_string a = format format_string b -> a = b) ->
    NoDup (save_names
             (snd (run convert format (new window_name format_string) evs))).
Proof.
  intros convert format wn fs evs Hlen Hinj.
  destruct (run_counter convert format evs (new wn fs))
    as (_ & Hl & _ & Hn); [simpl; lia | simpl; lia |].
  simpl count_ in Hn. simpl filename_format_ in Hn.
  rewrite Hn.
  apply NoDup_map_NoDup_ForallPairs; [| apply seq_NoDup].
  intros a b Ha Hb Heq.
  apply in_seq in Ha. apply in_seq in Hb.
  apply Nat2Z.inj. apply Hinj; [lia | lia | exact Heq].
Qed.

Lemma save_names_never_repeat_witness :
  Z.of_nat (List.length MoreSamples.two_clicks) <= INT_MAX
  /\ (forall a b,
         0 <= a < Z.of_nat (List.length MoreSamples.two_clicks) ->
         0 <= b < Z.of_nat (List.length MoreSamples.two_clicks) ->
         Samples.format_04i "frame%04i.jpg" a
         = Samples.format_04i "frame%04i.jpg" b -> a = b)
  /\ NoDup (save_names
              (snd (run Samples.bgra8_only Samples.format_04i
                        (new "/image" "frame%04i.jpg")
                        MoreSamples.two_clicks))).
Proof.
  assert (H1 : Z.of_nat (List.length MoreSamples.two_clicks) <= INT_MAX)
    by (vm_compute; discriminate).
  assert (H2 : forall a b,
             0 <= a < Z.of_nat (List.length MoreSamples.two_clicks) ->
             0 <= b < Z.of_nat (List.length MoreSamples.two_clicks) ->
             Samples.format_04i "frame%04i.jpg" a
             = Samples.format_04i "frame%04i.jpg" b -> a = b).
  { simpl List.length. intros a b Ha Hb.
    assert (Ea : a = 0 \/ a = 1 \/ a = 2) by lia.
    assert (Eb : b = 0 \/ b = 1 \/ b = 2) by lia.
    destruct Ea as [-> | [-> | ->]]; destruct Eb as [-> | [-> | ->]];
      vm_compute; intros E; try reflexivity; discriminate E. }
  split; [exact H1 | split; [exact H2 |]].
  exact (save_names_never_repeat Samples.bgra8_only Samples.format_04i
           "/image" "frame%04i.jpg" MoreSamples.two_clicks H1 H2).
Defined.

(** ** More on the arithmetic of the overlay *)

(** X7: where a colour sample equals the sample of the fourth channel, the
    overlay leaves it as it is. *)
Theorem overlay_fixes_sample_equal_to_mask :
  forall (ipl : IplImage) (i c : nat),
    bgra8_image ipl -> (i < area ipl)%nat -> (c < 3)%nat ->
    sample ipl i c = sample ipl i 3 ->
    sample (composite ipl) i c = sample ipl i c.
Proof.
  intros ipl i c Himg Hi Hc Heq.
  pose proof Himg as (Hcn & Hlen & _).
  rewrite composite_sample by (auto; lia).
  replace (c <? 3)%nat with true by (symmetry; apply Nat.ltb_lt; exact Hc).
  assert (Hx : uchar (sample ipl i c)) by (apply sample_uchar; auto; lia).
  rewrite <- Heq.
  destruct (blend_bounds _ _ Hx Hx) as (_ & _ & Hb).
  lia.
Qed.

Lemma overlay_fixes_sample_equal_to_mask_witness :
  bgra8_image MoreSamples.ipl_equal
  /\ (0 < area MoreSamples.ipl_equal)%nat /\ (1 < 3)%nat
  /\ sample MoreSamples.ipl_equal 0 1 = sample MoreSamples.ipl_equal 0 3
  /\ sample (composite MoreSamples.ipl_equal) 0 1
     = sample MoreSamples.ipl_equal 0 1.
Proof.
  assert (H1 : bgra8_image MoreSamples.ipl_equal)
    by (split; [reflexivity | split; [reflexivity |]];
        repeat constructor; unfold uchar; lia).
  assert (H2 : (0 < area MoreSamples.ipl_equal)%nat) by (vm_compute; lia).
  assert (H3 : (1 < 3)%nat) by lia.
  assert (H4 : sample MoreSamples.ipl_equal 0 1
               = sample MoreSamples.ipl_equal 0 3) by reflexivity.
  repeat (split; [assumption |]).
  exact (overlay_fixes_sample_equal_to_mask MoreSamples.ipl_equal 0 1
           H1 H2 H3 H4).
Defined.

(** X8: the overlay keeps order: a larger colour sample or a larger sample
    of the fourth channel never gives a smaller result. *)
Theorem blend_is_monotone :
  forall x x' m m' : Z,
    uchar x -> uchar x' -> uchar m -> uchar m' ->
    x <= x' -> m <= m' -> blend x m <= blend x' m'.
Proof.
  intros x x' m m' Hx Hx' Hm Hm' Hxx Hmm.
  destruct (Z.eq_dec x x') as [<- | Hnx];
    [destruct (Z.eq_dec m m') as [<- | Hnm]; [lia |] |];
    destruct (blend_bounds x m Hx Hm) as (_ & H1 & _);
    destruct (blend_bounds _ _ Hx' Hm') as (_ & H2 & _);
    unfold nearest_to_blend in H1, H2; lia.
Qed.

Lemma blend_is_monotone_witness :
  uchar 10 /\ uchar 11 /\ uchar 200 /\ uchar 200 /\ 10 <= 11 /\ 200 <= 200
  /\ blend 10 200 <= blend 11 200.
Proof.
  assert (H1 : uchar 10) by (unfold uchar; lia).
  assert (H2 : uchar 11) by (unfold uchar; lia).
  assert (H3 : uchar 200) by (unfold uchar; lia).
  assert (H4 : 10 <= 11) by lia.
  assert (H5 : 200 <= 200) by lia.
  repeat (split; [assumption |]).
  exact (blend_is_monotone 10 11 200 200 H1 H2 H3 H3 H4 H5).
Defined.

(** ** What the bridge is asked to convert *)

Lemma mono8_has_no_bayer : ~ contains "mono8" "bayer".
Proof.
  intros H.
  apply (find_from_contains "bayer" "mono8" 0) in H.
  destruct H as [k H]. vm_compute in H. discriminate.
Qed.

Lemma bayer_as_mono_facts (msg : Image) :
  ~ contains (encoding (bayer_as_mono msg)) "bayer"
  /\ data (bayer_as_mono msg) = data msg
  /\ msg_width (bayer_as_mono msg) = msg_width msg
  /\ msg_height (bayer_as_mono msg) = msg_height msg.
Proof.
  unfold bayer_as_mono, find.
  destruct (find_from "bayer" (encoding msg) 0) as [k|] eqn:E.
  - simpl. repeat split; auto. apply mono8_has_no_bayer.
  - repeat split; auto.
    intros H. apply (find_from_contains "bayer" (encoding msg) 0) in H.
    destruct H as [k H]. congruence.
Qed.

Lemma conversion_attempts_app (t1 t2 : list Effect) :
  conversion_attempts (t1 ++ t2)
  = conversion_attempts t1 ++ conversion_attempts t2.
Proof.
  induction t1 as [|e t1 IH]; [reflexivity|].
  destruct e; simpl; rewrite IH; reflexivity.
Qed.

Lemma step_conversion_attempts (convert : Image -> string -> option IplImage)
      (format : string -> Z -> string)
      (iv : ImageView.ImageView) (ev : Event) :
  conversion_attempts (snd (step convert format iv ev))
  = map (fun msg => (bayer_as_mono msg, "bgra8"%string)) (frames [ev]).
Proof.
  destruct ev as [msg | event x y flags ok]; cbn [step frames map].
  - destruct (convert (bayer_as_mono msg) "bgra8"%string) as [ipl|] eqn:E.
    + rewrite (image_cb_converted convert iv msg ipl E). reflexivity.
    + rewrite (image_cb_rejected convert iv msg E). reflexivity.
  - destruct (Z.eqb_spec event CV_EVENT_LBUTTONDOWN) as [-> | Hne].
    + destruct (toIpl (img_bridge_ iv)) as [image|] eqn:E.
      * rewrite (mouse_cb_saves format iv image x y flags ok E). reflexivity.
      * rewrite (mouse_cb_no_data format iv x y flags ok E). reflexivity.
    + rewrite (mouse_cb_other_event format iv event x y flags ok Hne).
      reflexivity.
Qed.

(** X9: the message image_cb hands to the bridge never carries a Bayer tag,
    whatever the incoming encoding was, and has the size and the data of the
    incoming message; rewriting the tag a second time changes nothing. *)
Theorem bridge_never_sees_a_bayer_tag :
  forall (convert : Image -> string -> option IplImage)
         (iv : ImageView.ImageView) (msg : Image),
    Forall (fun call : Image * string =>
              ~ contains (encoding (fst call)) "bayer"
              /\ data (fst call) = data msg
              /\ msg_width (fst call) = msg_width msg
              /\ msg_height (fst call) = msg_height msg)
           (conversion_attempts (snd (image_cb convert iv msg)))
    /\ bayer_as_mono (bayer_as_mono msg) = bayer_as_mono msg.
Proof.
  intros convert iv msg. split.
  - pose proof (step_conversion_attempts convert (fun _ _ => EmptyString)
                  iv (Frame msg)) as H.
    cbn [step frames map] in H. rewrite H.
    constructor; [| constructor]. apply bayer_as_mono_facts.
  - apply bayer_as_mono_other. apply bayer_as_mono_facts.
Qed.

(** X10: in a run the bridge is asked to convert once for every frame
    delivered, in the order of delivery and always to "bgra8"; mouse events
    never cause a conversion. *)
Theorem one_conversion_per_frame :
  forall (convert : Image -> string -> option IplImage)
         (format : string -> Z -> string)
         (iv : ImageView.ImageView) (evs : list Event),
    conversion_attempts (snd (run convert format iv evs))
    = map (fun msg => (bayer_as_mono msg, "bgra8"%string)) (frames evs).
Proof.
  intros convert format iv evs. revert iv.
  induction evs as [|ev evs IH]; intros iv; [reflexivity |].
  rewrite run_cons. cbn [snd].
  rewrite conversion_attempts_app, IH, step_conversion_attempts.
  destruct ev; reflexivity.
Qed.

(** ** What the window shows *)

Lemma convert_errors_app (t1 t2 : list Effect) :
  convert_errors (t1 ++ t2) = convert_errors t1 ++ convert_errors t2.
Proof.
  induction t1 as [|e t1 IH]; [reflexivity|].
  destruct e; simpl; rewrite IH; reflexivity.
Qed.

Lemma step_shown_and_errors (convert : Image -> string -> option IplImage)
      (format : string -> Z -> string)
      (iv : ImageView.ImageView) (ev : Event) :
  shown_images (snd (step convert format iv ev))
  = flat_map (shown_for convert) (frames [ev])
  /\ convert_errors (snd (step convert format iv ev))
     = flat_map (error_for convert) (frames [ev]).
Proof.
  destruct ev as [msg | event x y flags ok]; cbn [step frames flat_map].
  - unfold shown_for, error_for.
    destruct (convert (bayer_as_mono msg) "bgra8"%string) as [ipl|] eqn:E.
    + rewrite (image_cb_converted convert iv msg ipl E). split; reflexivity.
    + rewrite (image_cb_rejected convert iv msg E). split; reflexivity.
  - destruct (Z.eqb_spec event CV_EVENT_LBUTTONDOWN) as [-> | Hne].
    + destruct (toIpl (img_bridge_ iv)) as [image|] eqn:E.
      * rewrite (mouse_cb_saves format iv image x y flags ok E).
        split; reflexivity.
      * rewrite (mouse_cb_no_data format iv x y flags ok E).
        split; reflexivity.
    + rewrite (mouse_cb_other_event format iv event x y flags ok Hne).
      split; reflexivity.
Qed.

Lemma shown_for_error_for (convert : Image -> string -> option IplImage)
      (msgs : list Image) :
  (List.length (flat_map (shown_for convert) msgs)
   + List.length (flat_map (error_for convert) msgs))%nat
  = List.length msgs.
Proof.
  induction msgs as [|msg msgs IH]; [reflexivity |].
  cbn [flat_map]. rewrite !length_app. cbn [List.length].
  unfold shown_for at 1, error_for at 1.
  destruct (convert (bayer_as_mono msg) "bgra8"%string); simpl; lia.
Qed.

(** X11: what the window shows in a run depends on the frames alone, not on
    the state the run starts in and not on the mouse events: it is, frame by
    frame, the overlay of the frame's conversion, and nothing for a frame the
    bridge rejects.  The error log likewise has one line for every rejected
    frame, so every frame is either shown or reported, never both and never
    neither. *)
Theorem every_frame_is_shown_or_reported :
  forall (convert : Image -> string -> option IplImage)
         (format : string -> Z -> string)
         (iv : ImageView.ImageView) (evs : list Event),
    let tr := snd (run convert format iv evs) in
    shown_images tr = flat_map (shown_for convert) (frames evs)
    /\ convert_errors tr = flat_map (error_for convert) (frames evs)
    /\ (List.length (shown_images tr) + List.length (convert_errors tr))%nat
       = List.length (frames evs).
Proof.
  intros convert format iv evs. cbv zeta.
  assert (H : shown_images (snd (run convert format iv evs))
              = flat_map (shown_for convert) (frames evs)
              /\ convert_errors (snd (run convert format iv evs))
                 = flat_map (error_for convert) (frames evs)).
  { revert iv. induction evs as [|ev evs IH]; intros iv; [split; reflexivity |].
    rewrite run_cons. cbn [snd].
    rewrite shown_images_app, convert_errors_app.
    destruct (IH (fst (step convert format iv ev))) as [-> ->].
    destruct (step_shown_and_errors convert format iv ev) as [-> ->].
    destruct ev; cbn [frames flat_map]; rewrite ?app_nil_r; split; reflexivity. }
  destruct H as [-> ->].
  repeat split. apply shown_for_error_for.
Qed.

(** ** What the callbacks never change *)

Lemma shown_windows_app (t1 t2 : list Effect) :
  shown_windows (t1 ++ t2) = shown_windows t1 ++ shown_windows t2.
Proof.
  induction t1 as [|e t1 IH]; [reflexivity|].
  destruct e; simpl; rewrite IH; reflexivity.
Qed.

Lemma step_fixed_members (convert : Image -> string -> option IplImage)
      (format : string -> Z -> string)
      (iv : ImageView.ImageView) (ev : Event) :
  window_name_ (fst (step convert format iv ev)) = window_name_ iv
  /\ filename_format_ (fst (step convert format iv ev)) = filename_format_ iv
  /\ Forall (eq (window_name_ iv))
            (shown_windows (snd (step convert format iv ev))).
Proof.
  destruct ev as [msg | event x y flags ok]; cbn [step].
  - destruct (convert (bayer_as_mono msg) "bgra8"%string) as [ipl|] eqn:E.
    + rewrite (image_cb_converted convert iv msg ipl E). simpl.
      repeat split; auto.
    + rewrite (image_cb_rejected convert iv msg E). simpl.
      repeat split; auto.
  - destruct (Z.eqb_spec event CV_EVENT_LBUTTONDOWN) as [-> | Hne].
    + destruct (toIpl (img_bridge_ iv)) as [image|] eqn:E.
      * rewrite (mouse_cb_saves format iv image x y flags ok E). simpl.
        repeat split; auto.
      * rewrite (mouse_cb_no_data format iv x y flags ok E). simpl.
        repeat split; auto.
    + rewrite (mouse_cb_other_event format iv event x y flags ok Hne).
      simpl. repeat split; auto.
Qed.

Lemma run_fixed_members (convert : Image -> string -> option IplImage)
      (format : string -> Z -> string) (evs : list Event) :
  forall iv : ImageView.ImageView,
    window_name_ (fst (run convert format iv evs)) = window_name_ iv
    /\ filename_format_ (fst (run convert format iv evs))
       = filename_format_ iv
    /\ Forall (eq (window_name_ iv))
              (shown_windows (snd (run convert format iv evs))).
Proof.
  induction evs as [|ev evs IH]; intros iv.
  - simpl. repeat split; auto.
  - rewrite run_cons. cbn [fst snd].
    destruct (step_fixed_members convert format iv ev) as (Hw & Hf & Hs).
    destruct (IH (fst (step convert format iv ev))) as (Hw' & Hf' & Hs').
    rewrite Hw in Hw', Hs'. rewrite Hf in Hf'.
    repeat split; auto.
    rewrite shown_windows_app. apply Forall_app. split; assumption.
Qed.

(** X12: no callback changes the window name or the file name pattern, and
    every image a run shows is shown in the window named by window_name_. *)
Theorem window_and_pattern_are_fixed :
  forall (convert : Image -> string -> option IplImage)
         (format : string -> Z -> string)
         (iv : ImageView.ImageView) (evs : list Event),
    let r := run convert format iv evs in
    window_name_ (fst r) = window_name_ iv
    /\ filename_format_ (fst r) = filename_format_ iv
    /\ Forall (eq (window_name_ iv)) (shown_windows (snd r)).
Proof.
  intros convert format iv evs. cbv zeta.
  destruct (run_fixed_members convert format evs iv) as (Hw & Hf & Hs).
  split; [exact Hw | split; [exact Hf | exact Hs]].
Qed.

(** ** The process *)

Lemma main_calls (convert : Image -> string -> option IplImage)
      (format : string -> Z -> string)
      (argv : list string) (topic : string) (local_nh : Params)
      (evs : list Event) :
  let W := param (param_window_name local_nh) topic in
  let F := param (param_filename_format local_nh) "frame%04i.jpg"%string in
  let r := run convert format (new W F) evs in
  main convert format argv topic local_nh evs
  = (0,
     RosInit "image_view"
       :: (if String.eqb topic "/image" then [WarnNotRemapped] else [])
       ++ [NamedWindow W (if param (param_autosize local_nh) false
                          then CV_WINDOW_AUTOSIZE else 0);
           SetMouseCallback W;
           StartWindowThread;
           Subscribe topic 1 (nth 1 argv "raw"%string)]
       ++ map During (snd r)
       ++ [DestroyWindow W]).
Proof.
  cbv zeta. unfold main, construct, destroy_view.
  destruct (run_fixed_members convert format evs
              (new (param (param_window_name local_nh) topic)
                   (param (param_filename_format local_nh)
                          "frame%04i.jpg"%string)))
    as (Hw & _).
  destruct (run convert format _ evs) as [view' effects].
  cbn [fst snd] in *. rewrite Hw. cbn [window_name_ new].
  assert (Ht : (if 1 <? Z.of_nat (List.length argv)
                then nth 1 argv EmptyString else "raw"%string)
               = nth 1 argv "raw"%string).
  { destruct (Z.ltb_spec 1 (Z.of_nat (List.length argv))) as [H | H].
    - apply nth_indep. lia.
    - symmetry. apply nth_overflow. lia. }
  rewrite Ht. reflexivity.
Qed.

Lemma during_windows (W : string) (tr : list Effect) :
  Forall (eq W) (shown_windows tr) ->
  Forall (fun c => window_of c = None \/ window_of c = Some W)
         (map During tr).
Proof.
  induction tr as [|e tr IH]; intros H; [constructor |].
  destruct e; cbn [map shown_windows] in *;
    try (constructor; [left; reflexivity | apply IH; exact H]).
  inversion H as [|? ? Hw Hrest]; subst.
  constructor; [right; reflexivity | apply IH; exact Hrest].
Qed.

(** X13: a process deals with one window only: the window it creates, the
    one it sets the mouse callback on, the one every frame is shown in and
    the one it destroys at the end all carry the same name, the parameter
    window_name or, when that is not set, the resolved topic.  The window is
    created first and destroyed last, and the exit code is 0. *)
Theorem process_uses_one_window :
  forall (convert : Image -> string -> option IplImage)
         (format : string -> Z -> string)
         (argv : list string) (topic : string) (local_nh : Params)
         (evs : list Event),
    let W := param (param_window_name local_nh) topic in
    let r := main convert format argv topic local_nh evs in
    fst r = 0
    /\ Forall (fun c => window_of c = None \/ window_of c = Some W) (snd r)
    /\ (exists flags before after,
           snd r = before ++ NamedWindow W flags :: after ++ [DestroyWindow W]
           /\ Forall (fun c => window_of c = None) before).
Proof.
  intros convert format argv topic local_nh evs. cbv zeta.
  rewrite main_calls. cbn [fst snd].
  destruct (run_fixed_members convert format evs
              (new (param (param_window_name local_nh) topic)
                   (param (param_filename_format local_nh)
                          "frame%04i.jpg"%string)))
    as (_ & _ & Hs).
  cbn [window_name_ new] in Hs.
  split; [reflexivity | split].
  - constructor; [left; reflexivity |].
    apply Forall_app. split.
    + destruct (String.eqb topic "/image"); repeat constructor.
    + repeat (constructor; [try (left; reflexivity); right; reflexivity |]).
      apply Forall_app. split.
      * apply during_windows. exact Hs.
      * constructor; [right; reflexivity | constructor].
  - exists (if param (param_autosize local_nh) false
            then CV_WINDOW_AUTOSIZE else 0).
    exists (RosInit "image_view"
              :: (if String.eqb topic "/image"
                  then [WarnNotRemapped] else [])).
    exists ([SetMouseCallback (param (param_window_name local_nh) topic);
             StartWindowThread;
             Subscribe topic 1 (nth 1 argv "raw"%string)]
            ++ map During
                 (snd (run convert format
                           (new (param (param_window_name local_nh) topic)
                                (param (param_filename_format local_nh)
                                       "frame%04i.jpg"%string))
                           evs))).
    split.
    + reflexivity.
    + destruct (String.eqb topic "/image"); repeat constructor.
Qed.

Lemma callback_effects_app (c1 c2 : list Call) :
  callback_effects (c1 ++ c2) = callback_effects c1 ++ callback_effects c2.
Proof.
  induction c1 as [|c c1 IH]; [reflexivity |].
  destruct c; simpl; rewrite IH; reflexivity.
Qed.

Lemma callback_effects_during (tr : list Effect) :
  callback_effects (map During tr) = tr.
Proof.
  induction tr as [|e tr IH]; [reflexivity |].
  simpl. now rewrite IH.
Qed.

(** X14: leaving the topic unremapped is not fatal: the warning is issued
    exactly when the topic resolves to "/image", and in either case the
    process subscribes to the resolved topic with queue size 1, on the
    transport named by the first command-line argument or "raw" when there
    is none, and goes on to run every callback as a viewer started with the
    configured window name and file name pattern does: the effects of the
    callbacks among its calls are, in order and number, the effects of that
    viewer's run, and apart from the warning the whole sequence of calls is
    the same whatever the topic resolves to. *)
Theorem unremapped_topic_only_warns :
  forall (convert : Image -> string -> option IplImage)
         (format : string -> Z -> string)
         (argv : list string) (topic : string) (local_nh : Params)
         (evs : list Event),
    let W := param (param_window_name local_nh) topic in
    let F := param (param_filename_format local_nh) "frame%04i.jpg"%string in
    let r := main convert format argv topic local_nh evs in
    (In WarnNotRemapped (snd r) <-> topic = "/image"%string)
    /\ In (Subscribe topic 1 (nth 1 argv "raw"%string)) (snd r)
    /\ (forall e, In e (snd (run convert format (new W F) evs)) <->
                  In (During e) (snd r))
    /\ callback_effects (snd r) = snd (run convert format (new W F) evs)
    /\ snd r
       = RosInit "image_view"
           :: (if String.eqb topic "/image" then [WarnNotRemapped] else [])
           ++ [NamedWindow W (if param (param_autosize local_nh) false
                              then CV_WINDOW_AUTOSIZE else 0);
               SetMouseCallback W;
               StartWindowThread;
               Subscribe topic 1 (nth 1 argv "raw"%string)]
           ++ map During (snd (run convert format (new W F) evs))
           ++ [DestroyWindow W].
Proof.
  intros convert format argv topic local_nh evs. cbv zeta.
  rewrite main_calls. cbn [snd].
  split; [| split; [| split; [| split]]].
  - split.
    + intros [H | H]; [discriminate |].
      apply in_app_or in H. destruct H as [H | H].
      * destruct (String.eqb_spec topic "/image"); [assumption | destruct H].
      * exfalso.
        apply in_app_or in H. destruct H as [H | H].
        -- repeat (destruct H as [H | H]; [discriminate |]). exact H.
        -- apply in_app_or in H. destruct H as [H | H].
           ++ apply in_map_iff in H. destruct H as (e & He & _). discriminate.
           ++ destruct H as [H | []]. discriminate.
    + intros ->. right. apply in_or_app. left. left. reflexivity.
  - right. apply in_or_app. right. apply in_or_app. left.
    cbn. auto.
  - intros e. split.
    + intros H. right. apply in_or_app. right. apply in_or_app. right.
      apply in_or_app. left. apply in_map. exact H.
    + intros [H | H]; [discriminate |].
      apply in_app_or in H. destruct H as [H | H].
      * destruct (String.eqb topic "/image"); [| destruct H].
        destruct H as [H | []]. discriminate.
      * apply in_app_or in H. destruct H as [H | H].
        -- repeat (destruct H as [H | H]; [discriminate |]). destruct H.
        -- apply in_app_or in H. destruct H as [H | H].
           ++ apply in_map_iff in H. destruct H as (e' & He & Hin).
              injection He as ->. exact Hin.
           ++ destruct H as [H | []]. discriminate.
  - cbn [callback_effects].
    rewrite !callback_effects_app, callback_effects_during.
    destruct (String.eqb topic "/image"); cbn [callback_effects app];
      now rewrite app_nil_r.
  - reflexivity.
Qed.

(** ** Invariants of the bridge's image *)

Lemma saved_images_app (t1 t2 : list Effect) :
  saved_images (t1 ++ t2) = saved_images t1 ++ saved_images t2.
Proof.
  induction t1 as [|e t1 IH]; [reflexivity|].
  destruct e; simpl; rewrite IH; reflexivity.
Qed.

(** X15: when the bridge delivers complete 8-bit four-channel images for
    "bgra8", every image a run of a new viewer shows and every image it
    hands to cvSaveImage is a complete 8-bit four-channel image. *)
Theorem shown_and_saved_images_are_bgra8 :
  forall (convert : Image -> string -> option IplImage)
         (format : string -> Z -> string)
         (window_name format_string : string) (evs : list Event),
    (forall msg ipl, convert msg "bgra8"%string = Some ipl -> bgra8_image ipl) ->
    let r := run convert format (new window_name format_string) evs in
    Forall bgra8_image (shown_images (snd r))
    /\ Forall bgra8_image (saved_images (snd r)).
Proof.
  intros convert format wn fs evs Hconv. cbv zeta.
  assert (G : forall iv : ImageView.ImageView,
             (forall img, toIpl (img_bridge_ iv) = Some img -> bgra8_image img) ->
             Forall bgra8_image (shown_images (snd (run convert format iv evs)))
             /\ Forall bgra8_image
                       (saved_images (snd (run convert format iv evs)))).
  { induction evs as [|ev evs IH]; intros iv Hiv.
    - simpl. split; constructor.
    - rewrite run_cons. cbn [snd].
      rewrite shown_images_app, saved_images_app.
      assert (Hs : (forall img,
                       toIpl (img_bridge_ (fst (step convert format iv ev)))
                       = Some img -> bgra8_image img)
                   /\ Forall bgra8_image
                             (shown_images (snd (step convert format iv ev)))
                   /\ Forall bgra8_image
                             (saved_images (snd (step convert format iv ev)))).
      { destruct ev as [msg | event x y flags ok]; cbn [step].
        - destruct (convert (bayer_as_mono msg) "bgra8"%string)
            as [ipl|] eqn:E.
          + rewrite (image_cb_converted convert iv msg ipl E). simpl.
            pose proof (composite_bgra8 ipl (Hconv _ _ E)) as Hc.
            split; [| split; auto].
            intros img Himg. injection Himg as <-. exact Hc.
          + rewrite (image_cb_rejected convert iv msg E). simpl.
            split; [exact Hiv | split; constructor].
        - destruct (Z.eqb_spec event CV_EVENT_LBUTTONDOWN) as [-> | Hne].
          + destruct (toIpl (img_bridge_ iv)) as [image|] eqn:E.
            * rewrite (mouse_cb_saves format iv image x y flags ok E). simpl.
              split; [| split; [constructor |]].
              -- intros img0 H0. apply Hiv. congruence.
              -- constructor; [apply Hiv; reflexivity | constructor].
            * rewrite (mouse_cb_no_data format iv x y flags ok E). simpl.
              split; [| split; constructor].
              intros img0 H0. congruence.
          + rewrite (mouse_cb_other_event format iv event x y flags ok Hne).
            simpl. split; [exact Hiv | split; constructor]. }
      destruct Hs as (Hb & Hsh & Hsv).
      destruct (IH _ Hb) as (Hsh' & Hsv').
      split; apply Forall_app; split; assumption. }
  apply G. intros img H. discriminate.
Qed.

Lemma bgra8_checked_delivers_bgra8 :
  forall msg ipl,
    MoreSamples.bgra8_checked msg "bgra8"%string = Some ipl -> bgra8_image ipl.
Proof.
  intros msg ipl H. unfold MoreSamples.bgra8_checked in H.
  destruct (String.eqb (encoding msg) "bgra8" && String.eqb "bgra8" "bgra8"
            && Nat.eqb (List.length (data msg))
                       (msg_width msg * msg_height msg * 4)
            && forallb (fun v => (0 <=? v) && (v <=? 255)) (data msg))
    eqn:E; [| discriminate].
  injection H as <-.
  apply andb_true_iff in E. destruct E as [E Hall].
  apply andb_true_iff in E. destruct E as [_ Hlen].
  apply Nat.eqb_eq in Hlen.
  split; [reflexivity | split; [exact Hlen |]].
  apply Forall_forall. intros v Hv.
  rewrite forallb_forall in Hall. specialize (Hall v Hv).
  apply andb_true_iff in Hall. unfold uchar. lia.
Defined.

Lemma shown_and_saved_images_are_bgra8_witness :
  (forall msg ipl,
      MoreSamples.bgra8_checked msg "bgra8"%string = Some ipl ->
      bgra8_image ipl)
  /\ Forall bgra8_image
            (saved_images
               (snd (run MoreSamples.bgra8_checked Samples.format_04i
                         (new "/image" "frame%04i.jpg")
                         MoreSamples.two_clicks))).
Proof.
  split; [exact bgra8_checked_delivers_bgra8 |].
  exact (proj2 (shown_and_saved_images_are_bgra8
                  MoreSamples.bgra8_checked Samples.format_04i
                  "/image" "frame%04i.jpg" MoreSamples.two_clicks
                  bgra8_checked_delivers_bgra8)).
Defined.

Lemma not_in_app_warn (t1 t2 : list Effect) :
  ~ In WarnNoData t1 -> ~ In WarnNoData t2 -> ~ In WarnNoData (t1 ++ t2).
Proof.
  intros H1 H2 H. apply in_app_or in H. tauto.
Qed.

(** X16: the bridge never goes back to holding no image.  From a state in
    which it holds one, whatever frames and mouse events follow, it still
    holds one afterwards, the "no data" warning is never issued, and every
    press of the left button leads to a call of cvSaveImage. *)
Theorem once_an_image_is_held_every_click_saves :
  forall (convert : Image -> string -> option IplImage)
         (format : string -> Z -> string)
         (iv : ImageView.ImageView) (evs : list Event) (img : IplImage),
    toIpl (img_bridge_ iv) = Some img ->
    let r := run convert format iv evs in
    (exists img', toIpl (img_bridge_ (fst r)) = Some img')
    /\ ~ In WarnNoData (snd r)
    /\ List.length (save_names (snd r))
       = List.length (filter left_click evs).
Proof.
  intros convert format iv evs. revert iv.
  induction evs as [|ev evs IH]; intros iv img Himg; cbv zeta.
  - simpl. split; [eauto | split; [tauto | reflexivity]].
  - rewrite run_cons. cbn [fst snd].
    assert (Hs : (exists img1,
                     toIpl (img_bridge_ (fst (step convert format iv ev)))
                     = Some img1)
                 /\ ~ In WarnNoData (snd (step convert format iv ev))
                 /\ List.length (save_names (snd (step convert format iv ev)))
                    = List.length (filter left_click [ev])).
    { destruct ev as [msg | event x y flags ok]; cbn [step filter left_click].
      - destruct (convert (bayer_as_mono msg) "bgra8"%string) as [ipl|] eqn:E.
        + rewrite (image_cb_converted convert iv msg ipl E). simpl.
          split; [eauto | split; [| reflexivity]].
          intros [H | [H | [H | []]]]; discriminate.
        + rewrite (image_cb_rejected convert iv msg E). simpl.
          split; [eauto | split; [| reflexivity]].
          intros [H | [H | []]]; discriminate.
      - destruct (Z.eqb_spec event CV_EVENT_LBUTTONDOWN) as [-> | Hne].
        + rewrite (mouse_cb_saves format iv img x y flags ok Himg). simpl.
          split; [eauto | split; [| reflexivity]].
          intros [H | [H | []]]; discriminate.
        + rewrite (mouse_cb_other_event format iv event x y flags ok Hne).
          simpl. split; [eauto | split; [tauto | reflexivity]]. }
    destruct Hs as ((img1 & Himg1) & Hw & Hn).
    destruct (IH _ img1 Himg1) as (Hb' & Hw' & Hn').
    split; [exact Hb' | split].
    + apply not_in_app_warn; assumption.
    + rewrite save_names_app, length_app, Hn, Hn'.
      cbn [filter]. destruct (left_click ev); reflexivity.
Qed.

Lemma once_an_image_is_held_every_click_saves_witness :
  toIpl (img_bridge_
           (fst (image_cb Samples.bgra8_only Samples.viewer Samples.frame_bgra)))
  = Some (composite Samples.ipl_bgra)
  /\ ~ In WarnNoData
        (snd (run Samples.bgra8_only Samples.format_04i
                  (fst (image_cb Samples.bgra8_only Samples.viewer
                                 Samples.frame_bgra))
                  [Frame Samples.frame_rgb;
                   Mouse CV_EVENT_LBUTTONDOWN 1 2 0 true])).
Proof.
  assert (H : toIpl (img_bridge_
                (fst (image_cb Samples.bgra8_only Samples.viewer
                               Samples.frame_bgra)))
              = Some (composite Samples.ipl_bgra)) by reflexivity.
  split; [exact H |].
  exact (proj1 (proj2 (once_an_image_is_held_every_click_saves
                  Samples.bgra8_only Samples.format_04i
                  (fst (image_cb Samples.bgra8_only Samples.viewer
                                 Samples.frame_bgra))
                  [Frame Samples.frame_rgb;
                   Mouse CV_EVENT_LBUTTONDOWN 1 2 0 true]
                  (composite Samples.ipl_bgra) H))).
Defined.
